(** * InclusiveAI camera scanner: feature accumulation and the acceptance gate

    A shallow embedding of the React components [CameraScanner]
    (frontend/src/components/CameraScanner.jsx) and [RecommendationCard]
    (frontend/src/components/RecommendationCard.jsx), of the [ConsentModal]
    component, of the handlers of [OnboardingPage]
    (frontend/src/pages/OnboardingPage.jsx) and of the local storage
    utilities (frontend/src/utils/storage.js).

    JavaScript numbers are IEEE 754 binary64 values, so they are embedded as
    Rocq's primitive floats: [0.7], [0.2], [0.01] below denote the very doubles
    the JavaScript literals denote, and [+], [-], [/], [<], [Math.sqrt] are the
    correctly rounded operations of the language.

    React state is threaded explicitly: every [setFeatures(prev => ...)] and
    [setLiveStats(prev => ...)] updater of the source is a function on the
    state record, and every callback is a function on the component state.
    A callback that only runs state updaters ([prev => ...]) acts on the
    state current when it runs.  [completeScan] is different: it reads
    [features] and [liveStats] through the bindings of the render that
    created it, and it is only ever called by the timers that the
    [startScan] of that same render armed, so the render of the Start click
    is an explicit argument of [completeScan] and the armed timers are part
    of the component.  Which perception events arrive, and when, is left to
    the environment. *)

From Stdlib Require Import Floats ZArith Bool String Lia.
From stdpp Require Import base option list strings gmap.

Set Warnings "-inexact-float".
Set Default Proof Using "Type".

(* ------------------------------------------------------------------ *)
(** ** JavaScript [Math] on doubles *)

Module JS.

(** [Math.min(a, b)]: NaN if either argument is NaN, -0 counts as smaller
    than +0, otherwise the smaller one. *)
Definition Math_min (a b : float) : float :=
  if (is_nan a || is_nan b)%bool then nan
  else if (a <? b)%float then a
  else if (b <? a)%float then b
  else if get_sign a then a else b.

Definition Math_abs (a : float) : float := PrimFloat.abs a.

Definition Math_sqrt (a : float) : float := PrimFloat.sqrt a.

(** [Math.pow(a, 2)], taken as the correctly rounded square. *)
Definition Math_pow2 (a : float) : float := (a * a)%float.

(** [a || b] on a value that is [null] or a non-empty string / object. *)
Definition or_else {A} (a : option A) (b : A) : A :=
  match a with Some v => v | None => b end.

(** [arr.slice(-n)]: the last [n] elements (all of them when fewer). *)
Definition slice_last {A} (n : nat) (arr : list A) : list A :=
  drop (length arr - n) arr.

End JS.

(* ------------------------------------------------------------------ *)
(** ** Data model *)

(** A MediaPipe landmark [{x, y, z}] in normalized frame coordinates. *)
Module Landmark.
Record t := mk { x : float; y : float; z : float }.
End Landmark.

(** One detected hand: MediaPipe delivers its 21 landmarks, the first of
    which ([hand[0]]) is the wrist. *)
Module Hand.
Record t := mk { wrist : Landmark.t; others : list Landmark.t }.
End Hand.

(** An entry of [handMovementHistory]. *)
Module Position.
Record t := mk { x : float; y : float; z : float; time : Z }.
End Position.

Inductive GazePattern := normal | inconsistent.
Inductive Posture := standing | seated.

(** The [features] state of [CameraScanner] ([null] is [None]). *)
Module Features.
Record t := mk {
  handSignFreq : float;
  speechDetected : bool;
  gazePattern : option GazePattern;
  posture : option Posture;
  interactionBehavior : option string;
  handMovementHistory : list Position.t;
  speechHistory : list string
}.
End Features.

(** The [liveStats] state of [CameraScanner]. *)
Module LiveStats.
Record t := mk {
  handsDetected : nat;
  gesturesCount : nat;
  speechDetected : bool;
  faceDetected : bool;
  poseDetected : bool
}.
End LiveStats.

(** [scanResults.features], the vector handed to [onScanComplete]. *)
Module FeatureVector.
Record t := mk {
  handSignFreq : float;
  speechDetected : bool;
  gazePattern : GazePattern;
  posture : Posture;
  interactionBehavior : option string;
  timestamp : string
}.
End FeatureVector.

Module ScanResults.
Record t := mk { features : FeatureVector.t; duration : Z }.
End ScanResults.

(** One entry of a [SpeechRecognitionEvent]'s [results]: its [isFinal] flag
    and the transcript of its first alternative, [results[i][0].transcript]. *)
Module SpeechResult.
Record t := mk { isFinal : bool; transcript : string }.
End SpeechResult.

Module SpeechEvent.
Record t := mk { resultIndex : nat; results : list SpeechResult.t }.
End SpeechEvent.

(** The part of the component state of [CameraScanner] that the feature
    pipeline reads and writes, together with the record of the calls made to
    the [onScanComplete] prop. *)
Record Scanner := mkScanner {
  isScanning : bool;
  features : Features.t;
  liveStats : LiveStats.t;
  delivered : list ScanResults.t
}.

Definition initialFeatures : Features.t :=
  Features.mk 0%float false None None None [] [].

Definition initialLiveStats : LiveStats.t :=
  LiveStats.mk 0 0 false false false.

(** The state of a freshly mounted [CameraScanner]. *)
Definition mounted : Scanner :=
  mkScanner false initialFeatures initialLiveStats [].

Definition scanDuration : Z := 20000.

Definition setFeatures (f : Features.t -> Features.t) (s : Scanner) : Scanner :=
  mkScanner (isScanning s) (f (features s)) (liveStats s) (delivered s).

Definition setLiveStats (f : LiveStats.t -> LiveStats.t) (s : Scanner) : Scanner :=
  mkScanner (isScanning s) (features s) (f (liveStats s)) (delivered s).

Definition setIsScanning (b : bool) (s : Scanner) : Scanner :=
  mkScanner b (features s) (liveStats s) (delivered s).

(* ------------------------------------------------------------------ *)
(** ** Hand gestures: [analyzeHandGestures] *)

Definition handPositions (landmarks : list Hand.t) (currentTime : Z)
  : list Position.t :=
  map (fun hand =>
         let wrist := Hand.wrist hand in
         Position.mk (Landmark.x wrist) (Landmark.y wrist) (Landmark.z wrist)
                     currentTime)
      landmarks.

(** [Math.sqrt(Math.pow(lastPos.x - prevPos.x, 2) +
               Math.pow(lastPos.y - prevPos.y, 2))]. *)
Definition distance (lastPos prevPos : Position.t) : float :=
  JS.Math_sqrt
    (JS.Math_pow2 (Position.x lastPos - Position.x prevPos)
     + JS.Math_pow2 (Position.y lastPos - Position.y prevPos))%float.

(** The [movementFreq] computed inside the updater. *)
Definition movementFreq (recentHistory : list Position.t) (prevFreq : float)
  : float :=
  if decide (2 <= length recentHistory) then
    match recentHistory !! (length recentHistory - 1),
          recentHistory !! (length recentHistory - 2) with
    | Some lastPos, Some prevPos =>
        if (0.01 <? distance lastPos prevPos)%float
        then (prevFreq + 0.2)%float
        else prevFreq
    | _, _ => prevFreq
    end
  else prevFreq.

(** The updater passed to [setFeatures] by [analyzeHandGestures]. *)
Definition recordHandPositions (positions : list Position.t)
    (prev : Features.t) : Features.t :=
  let history := Features.handMovementHistory prev ++ positions in
  let recentHistory := JS.slice_last 10 history in
  Features.mk
    (JS.Math_min (movementFreq recentHistory (Features.handSignFreq prev)) 10)
    (Features.speechDetected prev)
    (Features.gazePattern prev)
    (Features.posture prev)
    (Features.interactionBehavior prev)
    recentHistory
    (Features.speechHistory prev).

Definition countGesture (prev : LiveStats.t) : LiveStats.t :=
  LiveStats.mk (LiveStats.handsDetected prev)
               (LiveStats.gesturesCount prev + 1)
               (LiveStats.speechDetected prev)
               (LiveStats.faceDetected prev)
               (LiveStats.poseDetected prev).

Definition analyzeHandGestures (landmarks : list Hand.t) (currentTime : Z)
    (s : Scanner) : Scanner :=
  if decide (0 < length landmarks) then
    setLiveStats countGesture
      (setFeatures (recordHandPositions (handPositions landmarks currentTime)) s)
  else s.

Definition setHandsDetected (n : nat) (prev : LiveStats.t) : LiveStats.t :=
  LiveStats.mk n
               (LiveStats.gesturesCount prev)
               (LiveStats.speechDetected prev)
               (LiveStats.faceDetected prev)
               (LiveStats.poseDetected prev).

(** [hands.onResults]: [multiHandLandmarks] may be undefined ([None]);
    drawing on the canvas is not part of the state. *)
Definition hands_onResults (multiHandLandmarks : option (list Hand.t))
    (currentTime : Z) (s : Scanner) : Scanner :=
  if isScanning s then
    match multiHandLandmarks with
    | Some landmarks =>
        setLiveStats (setHandsDetected (length landmarks))
          (analyzeHandGestures landmarks currentTime s)
    | None => s
    end
  else s.

(* ------------------------------------------------------------------ *)
(** ** Posture and gaze: [analyzePose] and [pose.onResults] *)

(** The posture computed by [analyzePose] once the four landmarks exist. *)
Definition classifyPosture (leftHip rightHip leftAnkle rightAnkle : Landmark.t)
  : Posture :=
  let hipY := ((Landmark.y leftHip + Landmark.y rightHip) / 2)%float in
  let ankleY := ((Landmark.y leftAnkle + Landmark.y rightAnkle) / 2)%float in
  let hipAnkleDiff := JS.Math_abs (hipY - ankleY)%float in
  if (hipAnkleDiff <? 0.2)%float then seated else standing.

Definition setPosture (p : Posture) (prev : Features.t) : Features.t :=
  Features.mk (Features.handSignFreq prev)
              (Features.speechDetected prev)
              (Features.gazePattern prev)
              (Some p)
              (Features.interactionBehavior prev)
              (Features.handMovementHistory prev)
              (Features.speechHistory prev).

(** [landmarks[23]], [landmarks[24]], [landmarks[27]], [landmarks[28]] are
    undefined ([None]) when the array is too short. *)
Definition analyzePose (landmarks : list Landmark.t) (s : Scanner) : Scanner :=
  match landmarks !! 23, landmarks !! 24, landmarks !! 27, landmarks !! 28 with
  | Some leftHip, Some rightHip, Some leftAnkle, Some rightAnkle =>
      setFeatures
        (setPosture (classifyPosture leftHip rightHip leftAnkle rightAnkle)) s
  | _, _, _, _ => s
  end.

(** The gaze computed in [pose.onResults] from the nose landmark. *)
Definition classifyGaze (nose : Landmark.t) : GazePattern :=
  if ((Landmark.x nose <? 0.3) || (0.7 <? Landmark.x nose))%float
  then inconsistent else normal.

Definition setGazePattern (g : GazePattern) (prev : Features.t) : Features.t :=
  Features.mk (Features.handSignFreq prev)
              (Features.speechDetected prev)
              (Some g)
              (Features.posture prev)
              (Features.interactionBehavior prev)
              (Features.handMovementHistory prev)
              (Features.speechHistory prev).

Definition setFaceAndPoseDetected (prev : LiveStats.t) : LiveStats.t :=
  LiveStats.mk (LiveStats.handsDetected prev)
               (LiveStats.gesturesCount prev)
               (LiveStats.speechDetected prev)
               true true.

(** [pose.onResults]: [poseLandmarks] may be undefined ([None]). *)
Definition pose_onResults (poseLandmarks : option (list Landmark.t))
    (s : Scanner) : Scanner :=
  if isScanning s then
    match poseLandmarks with
    | Some landmarks =>
        let s1 := analyzePose landmarks s in
        match landmarks !! 0 with
        | Some nose =>
            setLiveStats setFaceAndPoseDetected
              (setFeatures (setGazePattern (classifyGaze nose)) s1)
        | None => s1
        end
    | None => s
    end
  else s.

(* ------------------------------------------------------------------ *)
(** ** Speech: [recognition.onresult] *)

(** The updater run for one final result. *)
Definition recordSpeech (transcript : string) (prev : Features.t) : Features.t :=
  Features.mk (Features.handSignFreq prev)
              true
              (Features.gazePattern prev)
              (Features.posture prev)
              (Features.interactionBehavior prev)
              (Features.handMovementHistory prev)
              (JS.slice_last 5 (Features.speechHistory prev) ++ [transcript]).

Definition setSpeechDetected (prev : LiveStats.t) : LiveStats.t :=
  LiveStats.mk (LiveStats.handsDetected prev)
               (LiveStats.gesturesCount prev)
               true
               (LiveStats.faceDetected prev)
               (LiveStats.poseDetected prev).

(** The body of the [for] loop for the result at one index; the pair carries
    the local flag [speechDetected] of the handler and the component state. *)
Definition onresult_body (acc : bool * Scanner) (r : SpeechResult.t)
  : bool * Scanner :=
  if SpeechResult.isFinal r
  then (true, setFeatures (recordSpeech (SpeechResult.transcript r)) acc.2)
  else acc.

(** [recognition.onresult]: the loop visits [results[resultIndex ..]]. *)
Definition recognition_onresult (event : SpeechEvent.t) (s : Scanner) : Scanner :=
  let '(speechDetected, s1) :=
    fold_left onresult_body
      (drop (SpeechEvent.resultIndex event) (SpeechEvent.results event))
      (false, s) in
  if speechDetected then setLiveStats setSpeechDetected s1 else s1.

(* ------------------------------------------------------------------ *)
(** ** Ending a scan: [completeScan] and [stopScan] *)

(** [features.interactionBehavior || null]: the empty string is falsy. *)
Definition interactionBehavior_or_null (v : option string) : option string :=
  match v with
  | Some EmptyString => None
  | other => other
  end.

(** The [scanResults] object built by [completeScan] from the [features]
    and [liveStats] it reads; [now] is [new Date().toISOString()]. *)
Definition scanResults (f : Features.t) (l : LiveStats.t) (now : string)
  : ScanResults.t :=
  ScanResults.mk
    (FeatureVector.mk
       (JS.Math_min (Features.handSignFreq f) 10)
       (Features.speechDetected f || LiveStats.speechDetected l)
       (JS.or_else (Features.gazePattern f) normal)
       (JS.or_else (Features.posture f) standing)
       (interactionBehavior_or_null (Features.interactionBehavior f))
       now)
    scanDuration.

(** [completeScan], as the render [clicked] created it: leaves the
    scanning state and hands [scanResults] to [onScanComplete] (after a
    delay of 300 ms, which is not modelled).  Stopping the camera, the media
    tracks and the speech recogniser touch no modelled state (their
    exceptions are caught).  The [features] and [liveStats] it reads are the
    bindings of its own render, [clicked]; [setIsScanning(false)] acts on
    the current state [s]. *)
Definition completeScan (clicked : Scanner) (now : string) (s : Scanner)
  : Scanner :=
  mkScanner false (features s) (liveStats s)
            (delivered s
             ++ [scanResults (features clicked) (liveStats clicked) now]).

(** [stopScan], the handler of the "Stop Scan" button: leaves the scanning
    state, stops camera, tracks and recogniser and clears the progress
    interval; the timers armed by [startGuidedSteps] are left running. *)
Definition stopScan (s : Scanner) : Scanner := setIsScanning false s.

(** [startScan] once [getUserMedia] resolved; when it rejects, [onError] is
    called and the state is left as it was. *)
Definition startScan (granted : bool) (s : Scanner) : Scanner :=
  if granted then setIsScanning true s else s.

(* ------------------------------------------------------------------ *)
(** ** The component as a transition system *)

(** Perception events: the results callbacks of the hand tracker, the pose
    tracker and the speech recogniser. *)
Inductive Event :=
| HandsResults (multiHandLandmarks : option (list Hand.t)) (currentTime : Z)
| PoseResults (poseLandmarks : option (list Landmark.t))
| SpeechResults (event : SpeechEvent.t).

Definition observe (s : Scanner) (e : Event) : Scanner :=
  match e with
  | HandsResults lms t => hands_onResults lms t s
  | PoseResults lms => pose_onResults lms s
  | SpeechResults ev => recognition_onresult ev s
  end.

(** What can happen to a mounted [CameraScanner]: the two buttons, a
    perception event, and the last guided-steps timer of the oldest Start
    click still pending, which runs that render's [completeScan]. *)
Inductive Action :=
| StartScan (granted : bool)
| Observe (e : Event)
| StopScan
| CompleteScan (now : string).

(** One action on the component state; [fired] is the render whose timer
    fires, when there is one ([completeScan] has no other caller that can
    run: the progress interval calls it only if the render of the Start
    click was already scanning). *)
Definition step (fired : option Scanner) (s : Scanner) (a : Action) : Scanner :=
  match a with
  | StartScan granted => startScan granted s
  | Observe e => observe s e
  | StopScan => stopScan s
  | CompleteScan now =>
      match fired with
      | Some clicked => completeScan clicked now s
      | None => s
      end
  end.

(** The mounted component: its state, and the renders of the Start clicks
    whose timers have not yet run [completeScan], oldest first. *)
Record Component := mkComponent { current : Scanner; timers : list Scanner }.

(** [startGuidedSteps], called by the [startScan] of the render [clicked]:
    arms the timers that run [completeScan] of that render once the scan
    duration is over. *)
Definition startGuidedSteps (clicked : Scanner) (pending : list Scanner)
  : list Scanner :=
  pending ++ [clicked].

Definition act (c : Component) (a : Action) : Component :=
  mkComponent
    (step (head (timers c)) (current c) a)
    (match a with
     | StartScan true => startGuidedSteps (current c) (timers c)
     | CompleteScan _ => tail (timers c)
     | _ => timers c
     end).

Definition play (s : Scanner) (actions : list Action) : Component :=
  fold_left act actions (mkComponent s []).

Definition run (s : Scanner) (actions : list Action) : Scanner :=
  current (play s actions).

(** The state of a scan in progress: the scan is started on a freshly
    mounted component and [events] are observed. *)
Definition scanning (events : list Event) : Scanner :=
  fold_left observe events (startScan true mounted).

(** One observation window on a freshly mounted component: Start is
    clicked, [events] are observed, the timer fires.  The result is what
    was handed to [onScanComplete]. *)
Definition window (events : list Event) (now : string) : list ScanResults.t :=
  delivered
    (run mounted ([StartScan true] ++ (Observe <$> events) ++ [CompleteScan now])).

(* ------------------------------------------------------------------ *)
(** ** The recommendation and its card: [RecommendationCard] *)

Inductive Mode := voice | sign | text | gesture | motor.

#[global] Instance Mode_eq_dec : EqDecision Mode.
Proof. solve_decision. Defined.

(** The recommendation object received from the assist-scan request. *)
Module Recommendation.
Record t := mk {
  mode : Mode;
  confidence : float;
  cues : list string;
  scores : Mode -> float
}.
End Recommendation.

Definition isHighConfidence (confidence : float) : bool :=
  (0.7 <? confidence)%float.

(** What the rendered card shows, as far as the confidence gate goes: the
    low-confidence warning, the listed cues ([cues.slice(0, 3)]) and the
    [disabled] attribute of the "Accept Recommendation" button. *)
Module Card.
Record t := mk {
  mode : Mode;
  confidenceWarning : bool;
  cueItems : list string;
  acceptDisabled : bool
}.
End Card.

(** [RecommendationCard]: renders nothing without a recommendation. *)
Definition RecommendationCard (recommendation : option Recommendation.t)
  : option Card.t :=
  match recommendation with
  | None => None
  | Some r =>
      let isHigh := isHighConfidence (Recommendation.confidence r) in
      Some (Card.mk (Recommendation.mode r)
                    (negb isHigh)
                    (take 3 (Recommendation.cues r))
                    (negb isHigh))
  end.

(** The accept action is enabled when a card is rendered whose accept
    button is not disabled. *)
Definition acceptEnabled (recommendation : option Recommendation.t) : bool :=
  match RecommendationCard recommendation with
  | Some card => negb (Card.acceptDisabled card)
  | None => false
  end.

(* ------------------------------------------------------------------ *)
(** ** The scoring service's choice of mode *)

(** The fixed priority order of the modes, as the spec lists it. *)
Definition priority : list Mode := [voice; sign; text; gesture; motor].

(** Modelled from the spec: the scoring service behind the assist-scan
    request is not among the sources.  One comparison of its arg-max: the
    current best is replaced only by a strictly greater score. *)
Definition better (scores : Mode -> float) (best m : Mode) : Mode :=
  if (scores best <? scores m)%float then m else best.

(** Modelled from the spec: the scoring service behind the assist-scan
    request (the backend that computes [mode] from the score map) is not
    among the sources.  The spec makes [mode] the arg-max of the score map
    and resolves equal top scores by the priority order voice, sign, text,
    gesture, motor: the modes are scanned in that order, keeping the first
    of the best. *)
Definition recommendedMode (scores : Mode -> float) : Mode :=
  fold_left (better scores) (tail priority) (hd voice priority).

(** A score map as the spec has it: every score lies in [0, 1]. *)
Definition validScores (scores : Mode -> float) : Prop :=
  forall m, (0 <=? scores m)%float = true /\ (scores m <=? 1)%float = true.

(** [m] holds the top score. *)
Definition isTop (scores : Mode -> float) (m : Mode) : Prop :=
  forall m', (scores m' <=? scores m)%float = true.

(** The position of a mode in the priority order. *)
Definition rank (m : Mode) : nat :=
  match m with voice => 0 | sign => 1 | text => 2 | gesture => 3 | motor => 4 end.

(* ------------------------------------------------------------------ *)
(** ** Vocabulary of the statements *)

(** The neutral vector: what a window without any signal reports. *)
Definition neutralVector (now : string) : FeatureVector.t :=
  FeatureVector.mk 0%float false normal standing None now.

(** One capped increment of the hand-sign accumulator, and the values the
    accumulator takes after [k] increments from zero. *)
Definition bump (h : float) : float := JS.Math_min (h + 0.2)%float 10.

Fixpoint level (k : nat) : float :=
  match k with
  | O => 0%float
  | S k' => bump (level k')
  end.

(** The number of increments after which the accumulator stays at the cap. *)
Definition topLevel : nat := 51.

Definition onLadder (h : float) : Prop := exists k, k <= topLevel /\ h = level k.

(** The finalized results a speech event brings: the handler looks at
    [results[resultIndex ..]], the entries that changed with this event. *)
Definition finalizedResults (event : SpeechEvent.t) : list SpeechResult.t :=
  filter (fun r => SpeechResult.isFinal r = true)
         (drop (SpeechEvent.resultIndex event) (SpeechEvent.results event)).

Definition bringsFinalSpeech (e : Event) : bool :=
  match e with
  | SpeechResults event => bool_decide (finalizedResults event <> [])
  | _ => false
  end.

Definition isHandsEvent (e : Event) : bool :=
  match e with HandsResults _ _ => true | _ => false end.

Definition isPoseEvent (e : Event) : bool :=
  match e with PoseResults _ => true | _ => false end.


(** The gaze a pose frame supplies: it needs the nose landmark. *)
Definition gazeOfFrame (e : Event) : option GazePattern :=
  match e with
  | PoseResults (Some landmarks) => classifyGaze <$> landmarks !! 0
  | _ => None
  end.

(** The posture a pose frame supplies: it needs both hips and both ankles. *)
Definition postureOfFrame (e : Event) : option Posture :=
  match e with
  | PoseResults (Some landmarks) =>
      leftHip ← landmarks !! 23;
      rightHip ← landmarks !! 24;
      leftAnkle ← landmarks !! 27;
      rightAnkle ← landmarks !! 28;
      Some (classifyPosture leftHip rightHip leftAnkle rightAnkle)
  | _ => None
  end.

(** The value supplied by the most recent event that supplies one. *)
Definition mostRecent {A} (f : Event -> option A) (events : list Event)
  : option A :=
  last (omap f events).

(** A float that compares with itself, that is, any float but NaN. *)
Definition ordered (a : float) : Prop := (a <=? a)%float = true.

(** The hand-sign accumulator of a component state. *)
Definition freq (s : Scanner) : float := Features.handSignFreq (features s).

(** The vector [completeScan] builds when the render it reads is [s]. *)
Definition vectorOf (s : Scanner) (now : string) : FeatureVector.t :=
  ScanResults.features (scanResults (features s) (liveStats s) now).

(* ------------------------------------------------------------------ *)
(** ** Sample inputs *)

Module Sample.

Definition at_xy (x y : float) : Landmark.t := Landmark.mk x y 0%float.

Definition hand_at (x y : float) : Hand.t := Hand.mk (at_xy x y) [].

(** A recommendation whose confidence is exactly the threshold. *)
Definition atThreshold : Recommendation.t :=
  Recommendation.mk sign 0.7%float [] (fun _ => 0.7%float).

(** One finalized sentence. *)
Definition sentence : Event :=
  SpeechResults (SpeechEvent.mk 0 [SpeechResult.mk true "hello"%string]).




(** A scan in progress that has seen one hand. *)
Definition oneHandSeen : list Action :=
  [StartScan true; Observe (HandsResults (Some [hand_at 0.5 0.5]) 0)].

(** A pose frame of 33 landmarks: upright body, nose in the centre. *)
Definition uprightPose : list Landmark.t :=
  replicate 23 (at_xy 0.5 0.3)
  ++ [at_xy 0.45 0.5; at_xy 0.55 0.5]
  ++ replicate 2 (at_xy 0.5 0.7)
  ++ [at_xy 0.45 0.9; at_xy 0.55 0.9]
  ++ replicate 4 (at_xy 0.5 0.95).

(** Sign and text tie at the top. *)
Definition tiedScores (m : Mode) : float :=
  match m with
  | voice => 0.5
  | sign => 0.9
  | text => 0.9
  | gesture => 0.3
  | motor => 0.2
  end%float.

End Sample.

(* ------------------------------------------------------------------ *)
(** ** More vocabulary for the scanner *)

(** The perception events among the actions, in order. *)
Definition observed (actions : list Action) : list Event :=
  omap (fun a => match a with Observe e => Some e | _ => None end) actions.

(** The transcripts an event adds to [speechHistory], in order. *)
Definition transcriptsOf (e : Event) : list string :=
  match e with
  | SpeechResults event => SpeechResult.transcript <$> finalizedResults event
  | _ => []
  end.

Definition allTranscripts (events : list Event) : list string :=
  mjoin (transcriptsOf <$> events).

(** A hand frame that shows at least one hand. *)
Definition showsHands (e : Event) : bool :=
  match e with
  | HandsResults (Some (_ :: _)) _ => true
  | _ => false
  end.

(** The number of hands a hand frame reports. *)
Definition handCount (e : Event) : option nat :=
  match e with
  | HandsResults (Some landmarks) _ => Some (length landmarks)
  | _ => None
  end.


(** The render [t] is the one in which Start was clicked, with the camera
    granted, at some point of the run [actions]. *)
Definition clickedAt (actions : list Action) (t : Scanner) : Prop :=
  exists before after,
    actions = before ++ StartScan true :: after /\ t = run mounted before.


(** Two states that agree on everything but the speech fields. *)
Definition sameButSpeech (s s' : Scanner) : Prop :=
  isScanning s' = isScanning s
  /\ delivered s' = delivered s
  /\ freq s' = freq s
  /\ Features.handMovementHistory (features s')
     = Features.handMovementHistory (features s)
  /\ Features.gazePattern (features s') = Features.gazePattern (features s)
  /\ Features.posture (features s') = Features.posture (features s)
  /\ LiveStats.handsDetected (liveStats s') = LiveStats.handsDetected (liveStats s)
  /\ LiveStats.gesturesCount (liveStats s') = LiveStats.gesturesCount (liveStats s)
  /\ LiveStats.faceDetected (liveStats s') = LiveStats.faceDetected (liveStats s)
  /\ LiveStats.poseDetected (liveStats s') = LiveStats.poseDetected (liveStats s).


(* ------------------------------------------------------------------ *)
(** ** Flipping the camera: [flipCamera] *)

Inductive CameraFacing := user | environment.

(** The scanner together with its [cameraFacing] state. *)
Module Device.
Record t := mk { scanner : Scanner; cameraFacing : CameraFacing }.
End Device.



(** A pose frame that supplies the nose. *)
Definition showsNose (e : Event) : bool :=
  bool_decide (is_Some (gazeOfFrame e)).

(* ------------------------------------------------------------------ *)
(** ** The consent modal: [ConsentModal] *)

Module ConsentModal.

(** The state of the modal: the [readSections] object and the checkbox. *)
Record t := mk { readSections : gmap string bool; manualCheckbox : bool }.

(** The sections of the consent text. *)
Definition sections : list string :=
  ["purpose"; "data"; "usage"; "rights"]%string.

(** [{purpose: false, data: false, usage: false, rights: false}]. *)
Definition unread : gmap string bool :=
  list_to_map ((fun section => (section, false)) <$> sections).

Definition initial : t := mk unread false.

(** The effect that runs when the modal opens: everything is reset. *)
Definition opened (m : t) : t := mk unread false.

(** [setReadSections(prev => ({ ...prev, [section]: true }))]. *)
Definition markRead (section : string) (prev : gmap string bool)
  : gmap string bool :=
  <[section := true]> prev.

Definition handleSectionRead (section : string) (m : t) : t :=
  mk (markRead section (readSections m)) (manualCheckbox m).

Definition handleCheckboxChange (checked : bool) (m : t) : t :=
  mk (readSections m) checked.

(** An [IntersectionObserverEntry]: [isIntersecting] and the
    [data-section] attribute of its target, if it has one. *)
Module Entry.
Record t := mk { isIntersecting : bool; section : option string }.
End Entry.

(** The section an entry marks: it must intersect and carry a non-empty
    [data-section]. *)
Definition entrySection (entry : Entry.t) : option string :=
  if Entry.isIntersecting entry then
    match Entry.section entry with
    | Some EmptyString => None
    | other => other
    end
  else None.

Definition observerCallback (entries : list Entry.t) (m : t) : t :=
  fold_left (fun m entry =>
               match entrySection entry with
               | Some sectionId => handleSectionRead sectionId m
               | None => m
               end)
            entries m.

(** [Object.values(readSections).every(Boolean) || manualCheckbox]. *)
Definition allRead (m : t) : bool :=
  bool_decide (map_Forall (fun _ v => v = true) (readSections m))
  || manualCheckbox m.

(** What the open modal shows of its state. *)
Module View.
Record t := mk { checkboxChecked : bool; hintShown : bool; acceptDisabled : bool }.
End View.

Definition render (isOpen : bool) (m : t) : option View.t :=
  if isOpen
  then Some (View.mk (allRead m || manualCheckbox m)
                     (negb (allRead m) && negb (manualCheckbox m))
                     (negb (allRead m)))
  else None.

(** What happens to an open modal. *)
Inductive Event :=
| SectionRead (section : string)
| Observed (entries : list Entry.t)
| CheckboxChange (checked : bool).

Definition step (m : t) (e : Event) : t :=
  match e with
  | SectionRead section => handleSectionRead section m
  | Observed entries => observerCallback entries m
  | CheckboxChange checked => handleCheckboxChange checked m
  end.

(** The state of a modal that was opened and then saw [events]. *)
Definition after (m : t) (events : list Event) : t :=
  fold_left step events (opened m).

(** The sections an event marks as read. *)
Definition marked (e : Event) : list string :=
  match e with
  | SectionRead section => [section]
  | Observed entries => omap entrySection entries
  | CheckboxChange _ => []
  end.

(** The last position the user gave the checkbox, unchecked if none. *)
Definition lastChecked (events : list Event) : bool :=
  default false
    (last (omap (fun e => match e with
                          | CheckboxChange checked => Some checked
                          | _ => None
                          end) events)).

End ConsentModal.

(* ------------------------------------------------------------------ *)
(** ** The onboarding page: [OnboardingPage] *)

Module Onboarding.

(** The values of the [step] state. *)
Module Step.
Inductive t :=
| welcome | consent | scan | processing | recommendation | manual | complete.
End Step.

#[global] Instance Step_eq_dec : EqDecision Step.t.
Proof. solve_decision. Defined.

Inductive Source := camera_recommendation | manual_selection.

(** The preferences object the page builds ([confidence] is only there
    for an accepted recommendation). *)
Module Preferences.
Record t := mk {
  assistMode : Mode;
  source : Source;
  confidence : option float;
  completedOnboarding : bool;
  timestamp : string
}.
End Preferences.

(** The calls the page makes to the storage and api utilities, to the
    browser and to its [onComplete] prop. *)
Module Call.
Inductive t :=
| saveConsent (cameraUsage : bool) (timestamp : string) (version : string)
| savePreferences (preferences : Preferences.t) (returned : bool)
| saveUserPreferences (preferences : Preferences.t)
| submitAssistScan (scanData : ScanResults.t)
| clearCameraData
| alert (message : string)
| completeLater.
End Call.

(** The state of the page and the calls made so far. *)
Record Page := mkPage {
  step : Step.t;
  showConsent : bool;
  recommendation : option Recommendation.t;
  showManual : bool;
  error : option string;
  calls : list Call.t
}.

Definition initial : Page := mkPage Step.welcome false None false None [].

Definition scanFailed : string :=
  "Failed to process scan. Please try manual selection.".
Definition cameraDenied : string :=
  "Camera access denied or unavailable. Please use manual selection.".
Definition saveFailed : string :=
  "Failed to save preferences. Please try again.".

Definition handleStartOnboarding (p : Page) : Page :=
  mkPage Step.consent true (recommendation p) (showManual p) (error p) (calls p).

Definition handleConsentAccept (now : string) (p : Page) : Page :=
  mkPage Step.scan false (recommendation p) (showManual p) (error p)
         (calls p ++ [Call.saveConsent true now "1.0"]).

Definition handleConsentDecline (now : string) (p : Page) : Page :=
  mkPage Step.manual false (recommendation p) true (error p)
         (calls p ++ [Call.saveConsent false now "1.0"]).

(** [onClose] of the consent modal. *)
Definition closeConsent (p : Page) : Page :=
  mkPage (step p) false (recommendation p) (showManual p) (error p) (calls p).

(** [handleScanComplete] up to its [await]. *)
Definition handleScanComplete (scanData : ScanResults.t) (p : Page) : Page :=
  mkPage Step.processing (showConsent p) (recommendation p) (showManual p) (error p)
         (calls p ++ [Call.submitAssistScan scanData]).

(** [handleScanComplete] after its [await]: the request threw ([None]) or
    resolved with [response.data] ([Some data]), which is stored as it is;
    [data] is [None] when the response carries a falsy value ([null], an
    empty body), which the page takes for no recommendation. *)
Definition handleScanComplete_resume
    (result : option (option Recommendation.t)) (p : Page) : Page :=
  match result with
  | Some data =>
      mkPage Step.recommendation (showConsent p) data (showManual p) (error p)
             (calls p)
  | None =>
      mkPage Step.manual (showConsent p) (recommendation p) true (Some scanFailed)
             (calls p)
  end.

Definition handleScanError (p : Page) : Page :=
  mkPage Step.manual (showConsent p) (recommendation p) true (Some cameraDenied)
         (calls p).

(** [handleAcceptRecommendation]: reading [recommendation.confidence]
    throws when there is no recommendation, which the handler catches; what
    [savePreferences] returned ([saved]) is not looked at and a failing
    backend save is only logged. *)
Definition handleAcceptRecommendation (mode : Mode) (now : string)
    (saved : bool) (p : Page) : Page :=
  match recommendation p with
  | None =>
      mkPage (step p) (showConsent p) (recommendation p) (showManual p)
             (Some saveFailed) (calls p)
  | Some r =>
      let preferences :=
        Preferences.mk mode camera_recommendation
                       (Some (Recommendation.confidence r)) true now in
      mkPage Step.complete (showConsent p) (recommendation p) (showManual p) (error p)
             (calls p ++ [Call.savePreferences preferences saved;
                          Call.saveUserPreferences preferences;
                          Call.completeLater])
  end.

Definition handleOverride (p : Page) : Page :=
  mkPage Step.manual (showConsent p) (recommendation p) true (error p) (calls p).

(** [handleManualSelection]; [saved] is what [savePreferences] returned. *)
Definition handleManualSelection (selectedMode : Mode) (now : string)
    (saved : bool) (p : Page) : Page :=
  let preferences :=
    Preferences.mk selectedMode manual_selection None true now in
  if saved then
    mkPage Step.complete (showConsent p) (recommendation p) (showManual p) (error p)
           (calls p ++ [Call.savePreferences preferences true;
                        Call.saveUserPreferences preferences;
                        Call.completeLater])
  else
    mkPage (step p) (showConsent p) (recommendation p) (showManual p)
           (Some saveFailed)
           (calls p ++ [Call.savePreferences preferences false]).

Definition handleSkipCamera (p : Page) : Page :=
  mkPage Step.manual false (recommendation p) true (error p) (calls p).

Definition handleDeleteCameraData (p : Page) : Page :=
  mkPage (step p) (showConsent p) (recommendation p) (showManual p) (error p)
         (calls p ++ [Call.clearCameraData;
                      Call.alert "Camera data deleted successfully."]).

(** The "Dismiss" button of the error box. *)
Definition dismissError (p : Page) : Page :=
  mkPage (step p) (showConsent p) (recommendation p) (showManual p) None (calls p).

(** A click on "Accept Recommendation": the card is there at the
    recommendation step, and a disabled button does nothing. *)
Definition clickAccept (now : string) (saved : bool) (p : Page) : Page :=
  if decide (step p = Step.recommendation) then
    match RecommendationCard (recommendation p) with
    | Some card =>
        if Card.acceptDisabled card then p
        else handleAcceptRecommendation (Card.mode card) now saved p
    | None => p
    end
  else p.

(** What can happen to the page. *)
Inductive Handler :=
| StartOnboarding
| ConsentAccept (now : string)
| ConsentDecline (now : string)
| CloseConsent
| ScanComplete (scanData : ScanResults.t)
| ScanCompleteResume (result : option (option Recommendation.t))
| ScanError
| ClickAccept (now : string) (saved : bool)
| Override
| ManualSelection (selectedMode : Mode) (now : string) (saved : bool)
| SkipCamera
| DeleteCameraData
| DismissError.

Definition handle (p : Page) (h : Handler) : Page :=
  match h with
  | StartOnboarding => handleStartOnboarding p
  | ConsentAccept now => handleConsentAccept now p
  | ConsentDecline now => handleConsentDecline now p
  | CloseConsent => closeConsent p
  | ScanComplete scanData => handleScanComplete scanData p
  | ScanCompleteResume result => handleScanComplete_resume result p
  | ScanError => handleScanError p
  | ClickAccept now saved => clickAccept now saved p
  | Override => handleOverride p
  | ManualSelection selectedMode now saved =>
      handleManualSelection selectedMode now saved p
  | SkipCamera => handleSkipCamera p
  | DeleteCameraData => handleDeleteCameraData p
  | DismissError => dismissError p
  end.

Definition run (handlers : list Handler) : Page :=
  fold_left handle handlers initial.

(** The response data a handler brings: that of a scan request that
    resolved. *)
Definition resolved (h : Handler) : option (option Recommendation.t) :=
  match h with
  | ScanCompleteResume (Some data) => Some data
  | _ => None
  end.

(** The parts of the page. *)
Inductive Part :=
| WelcomeSection | ConsentDialog | ScanSection | ProcessingSection
| RecommendationSection | ManualSection | CompleteSection | ErrorMessage.

#[global] Instance Part_eq_dec : EqDecision Part.
Proof. solve_decision. Defined.

(** The parts the page renders ([ConsentModal] renders nothing unless
    [isOpen], which is [showConsent]). *)
Definition rendered (p : Page) : list Part :=
  (if decide (step p = Step.welcome) then [WelcomeSection] else [])
  ++ (if decide (step p = Step.consent)
      then (if showConsent p then [ConsentDialog] else []) else [])
  ++ (if decide (step p = Step.scan) then [ScanSection] else [])
  ++ (if decide (step p = Step.processing) then [ProcessingSection] else [])
  ++ (if decide (step p = Step.recommendation)
      then match recommendation p with
           | Some _ => [RecommendationSection]
           | None => []
           end
      else [])
  ++ (if showManual p then [ManualSection] else [])
  ++ (if decide (step p = Step.complete) then [CompleteSection] else [])
  ++ match error p with Some _ => [ErrorMessage] | None => [] end.

(** A call that saves or sends preferences carries completed onboarding,
    a confidence above the threshold when it comes from the camera, and no
    confidence when it comes from the manual form. *)
Definition soundPreferences (pr : Preferences.t) : Prop :=
  Preferences.completedOnboarding pr = true
  /\ match Preferences.source pr with
     | camera_recommendation =>
         exists c, Preferences.confidence pr = Some c /\ (0.7 <? c)%float = true
     | manual_selection => Preferences.confidence pr = None
     end.

Definition soundCall (c : Call.t) : Prop :=
  match c with
  | Call.savePreferences pr _ | Call.saveUserPreferences pr => soundPreferences pr
  | _ => True
  end.

(** Whatever reached the backend was handed to [savePreferences] first,
    and for a manual selection that call had returned true. *)
Definition backedLocally (cs : list Call.t) : Prop :=
  forall pr,
    Call.saveUserPreferences pr ∈ cs ->
    exists returned,
      Call.savePreferences pr returned ∈ cs
      /\ (Preferences.source pr = manual_selection -> returned = true).

End Onboarding.

Module OnboardingSample.

Import Onboarding.

(** A recommendation the card lets the user accept. *)
Definition confident : Recommendation.t :=
  Recommendation.mk sign 0.92%float [] (fun _ => 0.92%float).

(** Consent, a scan, a confident recommendation, accepted. *)
Definition acceptedFlow : list Handler :=
  [StartOnboarding; ConsentAccept "t0";
   ScanComplete (scanResults initialFeatures initialLiveStats "t1");
   ScanCompleteResume (Some (Some confident));
   ClickAccept "t2" false].

(** Consent, a scan, and a request that resolves with an empty response. *)
Definition emptyResponseFlow : list Handler :=
  [StartOnboarding; ConsentAccept "t0";
   ScanComplete (scanResults initialFeatures initialLiveStats "t1");
   ScanCompleteResume (Some None)].

End OnboardingSample.

(* ------------------------------------------------------------------ *)
(** ** Local storage utilities: [utils/storage.js]

    [localStorage] is a map from keys to strings.  JSON is kept abstract:
    [J] is the type of parsed values, [parse] is [JSON.parse] ([None] when
    it throws) and [stringify] is [JSON.stringify] on objects, which are
    maps from property names to values. *)

Module Storage.

Definition STORAGE_KEY : string := "inclusiveai_preferences".
Definition CONSENT_KEY : string := "inclusiveai_consent".
Definition CAMERA_KEY : string := "inclusiveai_camera_data".

Section WithJSON.

Context {J : Type}.
Variable null : J.
Variable jstring : string -> J.
Variable parse : string -> option J.
Variable stringify : gmap string J -> string.

(** [data ? JSON.parse(data) : null] inside [try]: a missing key, the
    empty string and text that does not parse all give [null]. *)
Definition readJSON (key : string) (localStorage : gmap string string) : J :=
  match localStorage !! key with
  | Some EmptyString => null
  | Some data => default null (parse data)
  | None => null
  end.

Definition getStoredPreferences (localStorage : gmap string string) : J :=
  readJSON STORAGE_KEY localStorage.

Definition getConsentStatus (localStorage : gmap string string) : J :=
  readJSON CONSENT_KEY localStorage.

(** [localStorage.setItem(key, JSON.stringify(data))] inside [try];
    [fits] tells whether [setItem] goes through (it throws when the quota
    is exceeded).  The result is the new storage and the returned flag. *)
Definition writeJSON (key : string) (data : gmap string J) (fits : bool)
    (localStorage : gmap string string) : gmap string string * bool :=
  if fits then (<[key := stringify data]> localStorage, true)
  else (localStorage, false).

(** [savePreferences]: the data is [{...preferences, updatedAt: now}]. *)
Definition savePreferences (preferences : gmap string J) (now : string)
    (fits : bool) (localStorage : gmap string string)
  : gmap string string * bool :=
  writeJSON STORAGE_KEY (<["updatedAt"%string := jstring now]> preferences)
            fits localStorage.

(** [saveConsent]: the data is [{...consentData, timestamp: now}]. *)
Definition saveConsent (consentData : gmap string J) (now : string)
    (fits : bool) (localStorage : gmap string string)
  : gmap string string * bool :=
  writeJSON CONSENT_KEY (<["timestamp"%string := jstring now]> consentData)
            fits localStorage.

Definition deleteAllUserData (localStorage : gmap string string)
  : gmap string string * bool :=
  (delete CAMERA_KEY (delete CONSENT_KEY (delete STORAGE_KEY localStorage)), true).

Definition clearCameraData (localStorage : gmap string string)
  : gmap string string * bool :=
  (delete CAMERA_KEY localStorage, true).

End WithJSON.

End Storage.

(* ================================================================== *)
(** * Properties *)

(* ------------------------------------------------------------------ *)
(** ** The definitions at work *)

Section Evaluation.

Example Math_min_below : JS.Math_min 3 10 = 3%float.
Proof. reflexivity. Qed.

Example Math_min_above : JS.Math_min 10.2 10 = 10%float.
Proof. reflexivity. Qed.

Example Math_min_nan : JS.Math_min nan 10 = nan.
Proof. reflexivity. Qed.

Example Math_min_zeros : JS.Math_min 0 (-0) = (-0)%float.
Proof. reflexivity. Qed.

Example slice_last_three : JS.slice_last 3 [1; 2; 3; 4; 5] = [3; 4; 5].
Proof. reflexivity. Qed.

(** Two wrists 0.1 apart are further apart than the threshold, two wrists
    0.005 apart are not. *)
Example distance_moved :
  (0.01 <? distance (Position.mk 0.6 0.5 0 40) (Position.mk 0.5 0.5 0 0))%float
  = true.
Proof. reflexivity. Qed.

Example distance_still :
  (0.01 <? distance (Position.mk 0.505 0.5 0 40) (Position.mk 0.5 0.5 0 0))%float
  = false.
Proof. reflexivity. Qed.

(** In double arithmetic fifty increments stop just short of the cap, which
    the fifty-first reaches. *)
Example level_fifty : level 50 = 9.9999999999999964%float.
Proof. reflexivity. Qed.

Example level_fifty_one : level 51 = 10%float.
Proof. reflexivity. Qed.

(** A scan in progress that saw a moving hand, a finalized sentence and an
    upright pose: what the component state would report. *)
Example scanning_with_signals :
  vectorOf
    (scanning [HandsResults (Some [Sample.hand_at 0.5 0.5]) 0;
               HandsResults (Some [Sample.hand_at 0.6 0.5]) 40;
               SpeechResults (SpeechEvent.mk 0 [SpeechResult.mk true "hi"%string]);
               PoseResults (Some Sample.uprightPose)])
    "2024-01-01T00:00:20.000Z"%string
  = FeatureVector.mk 0.2 true normal standing None
                     "2024-01-01T00:00:20.000Z"%string.
Proof. reflexivity. Qed.

(** The same events in the first window after mount: the timer hands on
    the vector of the render of the Start click. *)
Example window_with_signals :
  window [HandsResults (Some [Sample.hand_at 0.5 0.5]) 0;
          HandsResults (Some [Sample.hand_at 0.6 0.5]) 40;
          SpeechResults (SpeechEvent.mk 0 [SpeechResult.mk true "hi"%string]);
          PoseResults (Some Sample.uprightPose)]
         "2024-01-01T00:00:20.000Z"%string
  = [ScanResults.mk
       (FeatureVector.mk 0 false normal standing None
                         "2024-01-01T00:00:20.000Z"%string)
       20000].
Proof. reflexivity. Qed.

(** A scan that hears a sentence and is stopped: the state has the speech
    flag, and the timer still hands on a vector without it. *)
Example stopped_after_sentence :
  let stopped :=
    play mounted [StartScan true; Observe Sample.sentence; StopScan] in
  Features.speechDetected (features (current stopped)) = true
  /\ delivered (current stopped) = []
  /\ delivered (current (act stopped (CompleteScan "t"%string)))
     = [ScanResults.mk (FeatureVector.mk 0 false normal standing None "t"%string)
                       20000].
Proof. repeat split. Qed.

(** [rank] is the position in the priority order. *)
Lemma rank_priority (m : Mode) : priority !! rank m = Some m.
Proof. now destruct m. Qed.

End Evaluation.

(* ------------------------------------------------------------------ *)
(** ** The order of doubles

    Comparisons of primitive floats are specified by [SFcompare] on their
    IEEE 754 decoding; the facts below are read off that specification. *)

Module FloatOrder.

Ltac cmp_cases :=
  repeat match goal with
  | |- context [Z.compare ?a ?b] => destruct (Z.compare_spec a b); subst
  | H : context [Z.compare ?a ?b] |- _ => destruct (Z.compare_spec a b); subst
  | |- context [Pos.compare_cont Eq ?a ?b] =>
      change (Pos.compare_cont Eq a b) with (Pos.compare a b);
      destruct (Pos.compare_spec a b); subst
  | H : context [Pos.compare_cont Eq ?a ?b] |- _ =>
      change (Pos.compare_cont Eq a b) with (Pos.compare a b) in H;
      destruct (Pos.compare_spec a b); subst
  end.

Ltac sf_cases :=
  unfold SFleb, SFltb;
  repeat match goal with
         | x : spec_float |- _ => destruct x as [[]|[]| |[] ? ?]
         end;
  simpl; try congruence; cmp_cases; simpl in *; try congruence; try lia.

Lemma SFleb_trans x y z :
  SFleb x y = true -> SFleb y z = true -> SFleb x z = true.
Proof. sf_cases. Qed.

Lemma SFleb_total x y :
  SFleb x x = true -> SFleb y y = true -> SFltb x y = false -> SFleb y x = true.
Proof. sf_cases. Qed.

Lemma SFltb_leb x y : SFltb x y = true -> SFleb x y = true.
Proof. sf_cases. Qed.

Lemma SFleb_not_ltb x y : SFleb x y = true -> SFltb y x = false.
Proof. sf_cases. Qed.

Lemma SFleb_refl_r x y : SFleb x y = true -> SFleb y y = true.
Proof. sf_cases. Qed.

Lemma SFltb_leb_trans x y z :
  SFltb x y = true -> SFleb y z = true -> SFltb x z = true.
Proof. sf_cases. Qed.

Lemma SFleb_ltb_trans x y z :
  SFleb x y = true -> SFltb y z = true -> SFltb x z = true.
Proof. sf_cases. Qed.

Lemma leb_trans (a b c : float) :
  (a <=? b)%float = true -> (b <=? c)%float = true -> (a <=? c)%float = true.
Proof. rewrite !leb_spec. apply SFleb_trans. Qed.

Lemma leb_total (a b : float) :
  ordered a -> ordered b -> (a <? b)%float = false -> (b <=? a)%float = true.
Proof. unfold ordered. rewrite !leb_spec, ltb_spec. apply SFleb_total. Qed.

Lemma ltb_leb (a b : float) :
  (a <? b)%float = true -> (a <=? b)%float = true.
Proof. rewrite leb_spec, ltb_spec. apply SFltb_leb. Qed.

Lemma leb_not_ltb (a b : float) :
  (a <=? b)%float = true -> (b <? a)%float = false.
Proof. rewrite leb_spec, ltb_spec. apply SFleb_not_ltb. Qed.

Lemma leb_ordered_r (a b : float) : (a <=? b)%float = true -> ordered b.
Proof. unfold ordered. rewrite !leb_spec. apply SFleb_refl_r. Qed.

Lemma ltb_leb_trans (a b c : float) :
  (a <? b)%float = true -> (b <=? c)%float = true -> (a <? c)%float = true.
Proof. rewrite !ltb_spec, leb_spec. apply SFltb_leb_trans. Qed.

Lemma leb_ltb_trans (a b c : float) :
  (a <=? b)%float = true -> (b <? c)%float = true -> (a <? c)%float = true.
Proof. rewrite !ltb_spec, leb_spec. apply SFleb_ltb_trans. Qed.

End FloatOrder.

(* ------------------------------------------------------------------ *)
(** ** [Math.min] and the ladder of accumulator values *)

Section Ladder.

(** Capping twice is capping once: whatever [Math.min(_, 10)] returned is
    returned again. *)
Lemma Math_min_10_idem (a : float) :
  JS.Math_min (JS.Math_min a 10) 10 = JS.Math_min a 10.
Proof.
  unfold JS.Math_min at 2 3.
  destruct (is_nan a || is_nan 10)%bool eqn:Hnan; [reflexivity|].
  destruct (a <? 10)%float eqn:Hlt.
  { unfold JS.Math_min. now rewrite Hnan, Hlt. }
  destruct (10 <? a)%float eqn:Hgt; [reflexivity|].
  destruct (get_sign a) eqn:Hs; [|reflexivity].
  unfold JS.Math_min. now rewrite Hnan, Hlt, Hgt, Hs.
Qed.

Lemma bump_capped (h : float) : JS.Math_min (bump h) 10 = bump h.
Proof. apply Math_min_10_idem. Qed.

(** A property that holds on every rung up to [topLevel], by evaluation. *)
Lemma below_top (P : nat -> Prop) :
  Forall P (seq 0 (S topLevel)) -> forall k, k <= topLevel -> P k.
Proof.
  intros HP k Hk. rewrite Forall_forall in HP. apply HP.
  apply elem_of_seq. lia.
Qed.

Lemma level_top : level (S topLevel) = level topLevel.
Proof. vm_compute. reflexivity. Qed.

Lemma level_range k :
  k <= topLevel ->
  (0 <=? level k)%float = true /\ (level k <=? 10)%float = true.
Proof.
  apply (below_top (fun k => (0 <=? level k)%float = true
                             /\ (level k <=? 10)%float = true)).
  unfold topLevel. repeat constructor.
Qed.

Lemma level_step k :
  k <= topLevel -> (level k <=? level (S k))%float = true.
Proof.
  apply (below_top (fun k => (level k <=? level (S k))%float = true)).
  unfold topLevel. repeat constructor.
Qed.

Lemma level_capped k : JS.Math_min (level k) 10 = level k.
Proof. destruct k; [vm_compute; reflexivity | apply bump_capped]. Qed.

Lemma onLadder_zero : onLadder 0.
Proof. exists 0. split; [unfold topLevel; lia | reflexivity]. Qed.

Lemma onLadder_bump h : onLadder h -> onLadder (bump h).
Proof.
  intros (k & Hk & ->).
  destruct (decide (k = topLevel)) as [->|Hne].
  - exists topLevel. split; [lia|]. symmetry. apply level_top.
  - exists (S k). split; [lia | reflexivity].
Qed.

Lemma onLadder_capped h : onLadder h -> JS.Math_min h 10 = h.
Proof. intros (k & _ & ->). apply level_capped. Qed.

Lemma onLadder_range h :
  onLadder h -> (0 <=? h)%float = true /\ (h <=? 10)%float = true.
Proof. intros (k & Hk & ->). now apply level_range. Qed.

Lemma onLadder_le_bump h : onLadder h -> (h <=? bump h)%float = true.
Proof. intros (k & Hk & ->). now apply (level_step k). Qed.

(** On the ladder the capped increment is an increment of 0.2 unless that
    would reach or pass the cap. *)
Lemma onLadder_bump_plain h :
  onLadder h ->
  bump h = if (h + 0.2 <? 10)%float then (h + 0.2)%float else 10%float.
Proof.
  intros (k & Hk & ->). revert k Hk.
  apply (below_top (fun k => bump (level k)
                             = if (level k + 0.2 <? 10)%float
                               then (level k + 0.2)%float else 10%float)).
  unfold topLevel. repeat constructor.
Qed.

Lemma onLadder_refl h : onLadder h -> (h <=? h)%float = true.
Proof.
  intros H. apply (FloatOrder.leb_ordered_r 0). now apply onLadder_range.
Qed.

End Ladder.

(* ------------------------------------------------------------------ *)
(** ** What one callback does to the state *)

Section Callbacks.

Implicit Types (s : Scanner) (e : Event) (a : Action).

Lemma slice_last_length {A} (n : nat) (l : list A) :
  length (JS.slice_last n l) <= n.
Proof. unfold JS.slice_last. rewrite length_drop. lia. Qed.

Lemma slice_last_short {A} (n : nat) (l : list A) :
  length l <= n -> JS.slice_last n l = l.
Proof.
  intros H. unfold JS.slice_last.
  replace (length l - n) with 0 by lia. reflexivity.
Qed.

(** [movementFreq] on a history that ends in two samples. *)
Lemma movementFreq_two older prevPos lastPos h :
  movementFreq (older ++ [prevPos; lastPos]) h =
  if (0.01 <? distance lastPos prevPos)%float then (h + 0.2)%float else h.
Proof.
  unfold movementFreq. rewrite length_app. simpl.
  destruct (decide _) as [_|Hn]; [|lia].
  replace (length older + 2 - 1) with (length older + 1) by lia.
  replace (length older + 2 - 2) with (length older + 0) by lia.
  rewrite !lookup_app_r by lia.
  replace (length older + 1 - length older) with 1 by lia.
  replace (length older + 0 - length older) with 0 by lia.
  reflexivity.
Qed.

(** [movementFreq] on a history of fewer than two samples. *)
Lemma movementFreq_few recent h : length recent < 2 -> movementFreq recent h = h.
Proof. intros H. unfold movementFreq. destruct (decide _); [lia | reflexivity]. Qed.

Lemma movementFreq_cases recent h :
  movementFreq recent h = h \/ movementFreq recent h = (h + 0.2)%float.
Proof.
  unfold movementFreq. destruct (decide _); [|now left].
  destruct (_ !! _); [|now left]. destruct (_ !! _); [|now left].
  destruct (_ <? _)%float; [now right | now left].
Qed.

Lemma hands_onResults_freq lms t s :
  freq (hands_onResults lms t s) = freq s
  \/ freq (hands_onResults lms t s) = JS.Math_min (freq s) 10
  \/ freq (hands_onResults lms t s) = bump (freq s).
Proof.
  unfold hands_onResults, analyzeHandGestures, freq.
  destruct (isScanning s); [|now left].
  destruct lms as [landmarks|]; [|now left].
  destruct (decide _); [|now left]. simpl.
  destruct (movementFreq_cases
              (JS.slice_last 10 (Features.handMovementHistory (features s)
                                 ++ handPositions landmarks t))
              (Features.handSignFreq (features s))) as [-> | ->];
    [right; left | right; right]; reflexivity.
Qed.

Lemma analyzePose_freq landmarks s : freq (analyzePose landmarks s) = freq s.
Proof.
  unfold analyzePose.
  repeat (destruct (landmarks !! _); [|reflexivity]). reflexivity.
Qed.

Lemma pose_onResults_freq lms s : freq (pose_onResults lms s) = freq s.
Proof.
  unfold pose_onResults. destruct (isScanning s); [|reflexivity].
  destruct lms as [landmarks|]; [|reflexivity].
  destruct (landmarks !! 0); [|apply analyzePose_freq].
  unfold freq. simpl. apply analyzePose_freq.
Qed.

(** The loop of [recognition.onresult]: it only touches the speech fields,
    and its flag records whether some visited result was final. *)
Lemma onresult_loop rs flag s :
  let out := fold_left onresult_body rs (flag, s) in
  out.1 = (flag || existsb SpeechResult.isFinal rs)%bool
  /\ Features.speechDetected (features out.2)
     = (Features.speechDetected (features s)
        || existsb SpeechResult.isFinal rs)%bool
  /\ freq out.2 = freq s
  /\ Features.gazePattern (features out.2) = Features.gazePattern (features s)
  /\ Features.posture (features out.2) = Features.posture (features s)
  /\ Features.interactionBehavior (features out.2)
     = Features.interactionBehavior (features s)
  /\ Features.handMovementHistory (features out.2)
     = Features.handMovementHistory (features s)
  /\ isScanning out.2 = isScanning s
  /\ liveStats out.2 = liveStats s
  /\ delivered out.2 = delivered s.
Proof.
  revert flag s. induction rs as [|r rs IH]; intros flag s.
  - simpl. rewrite !orb_false_r. repeat split.
  - cbn [fold_left existsb]. cbv zeta.
    destruct (SpeechResult.isFinal r) eqn:Hf.
    + replace (onresult_body (flag, s) r)
        with (true, setFeatures (recordSpeech (SpeechResult.transcript r)) s)
        by (unfold onresult_body; now rewrite Hf).
      destruct (IH true (setFeatures (recordSpeech (SpeechResult.transcript r)) s))
        as (H1 & H2 & H3 & H4 & H5 & H6 & H7 & H8 & H9 & H10).
      rewrite H1, H2, H3, H4, H5, H6, H7, H8, H9, H10.
      rewrite !orb_true_r. repeat split.
    + replace (onresult_body (flag, s) r) with (flag, s)
        by (unfold onresult_body; now rewrite Hf).
      apply IH.
Qed.

Lemma existsb_final_filter rs :
  existsb SpeechResult.isFinal rs
  = bool_decide (filter (fun r => SpeechResult.isFinal r = true) rs <> []).
Proof.
  induction rs as [|r rs IH]; [reflexivity|]. simpl.
  rewrite filter_cons. destruct (decide _) as [Hf|Hf].
  - rewrite Hf. reflexivity.
  - destruct (SpeechResult.isFinal r); [congruence|]. simpl. exact IH.
Qed.

(** The component state after [recognition.onresult], field by field. *)
Lemma recognition_onresult_spec event s :
  let s' := recognition_onresult event s in
  Features.speechDetected (features s')
  = (Features.speechDetected (features s)
     || bringsFinalSpeech (SpeechResults event))%bool
  /\ LiveStats.speechDetected (liveStats s')
     = (LiveStats.speechDetected (liveStats s)
        || bringsFinalSpeech (SpeechResults event))%bool
  /\ freq s' = freq s
  /\ Features.gazePattern (features s') = Features.gazePattern (features s)
  /\ Features.posture (features s') = Features.posture (features s)
  /\ Features.interactionBehavior (features s')
     = Features.interactionBehavior (features s)
  /\ Features.handMovementHistory (features s')
     = Features.handMovementHistory (features s)
  /\ isScanning s' = isScanning s
  /\ delivered s' = delivered s.
Proof.
  unfold recognition_onresult, bringsFinalSpeech, finalizedResults.
  rewrite <- existsb_final_filter.
  pose proof (onresult_loop
                (drop (SpeechEvent.resultIndex event) (SpeechEvent.results event))
                false s) as H.
  destruct (fold_left _ _ _) as [flag s1]. simpl in H.
  destruct H as (H1 & H2 & H3 & H4 & H5 & H6 & H7 & H8 & H9 & H10).
  subst flag.
  destruct (existsb _ _); unfold freq in *; simpl;
    rewrite ?H2, ?H3, ?H4, ?H5, ?H6, ?H7, ?H8, ?H9, ?H10, ?orb_true_r, ?orb_false_r;
    repeat split; reflexivity.
Qed.

(** [hands.onResults] touches nothing but the hand fields. *)
Lemma hands_onResults_frame lms t s :
  let s' := hands_onResults lms t s in
  Features.speechDetected (features s') = Features.speechDetected (features s)
  /\ LiveStats.speechDetected (liveStats s') = LiveStats.speechDetected (liveStats s)
  /\ Features.gazePattern (features s') = Features.gazePattern (features s)
  /\ Features.posture (features s') = Features.posture (features s)
  /\ Features.interactionBehavior (features s')
     = Features.interactionBehavior (features s)
  /\ isScanning s' = isScanning s
  /\ delivered s' = delivered s.
Proof.
  unfold hands_onResults, analyzeHandGestures.
  destruct (isScanning s) eqn:Hs; [|now rewrite Hs].
  destruct lms as [landmarks|]; [|now rewrite Hs].
  destruct (decide _); simpl; now rewrite ?Hs.
Qed.

Lemma analyzePose_posture landmarks s :
  Features.posture (features (analyzePose landmarks s))
  = match postureOfFrame (PoseResults (Some landmarks)) with
    | Some p => Some p
    | None => Features.posture (features s)
    end.
Proof.
  unfold analyzePose, postureOfFrame.
  repeat (destruct (landmarks !! _); [|reflexivity]). reflexivity.
Qed.

Lemma analyzePose_frame landmarks s :
  let s' := analyzePose landmarks s in
  Features.speechDetected (features s') = Features.speechDetected (features s)
  /\ Features.gazePattern (features s') = Features.gazePattern (features s)
  /\ Features.interactionBehavior (features s')
     = Features.interactionBehavior (features s)
  /\ Features.handMovementHistory (features s')
     = Features.handMovementHistory (features s)
  /\ liveStats s' = liveStats s
  /\ isScanning s' = isScanning s
  /\ delivered s' = delivered s.
Proof.
  unfold analyzePose.
  repeat (destruct (landmarks !! _); [|repeat split]). repeat split.
Qed.

(** [pose.onResults] touches nothing but gaze, posture and the two
    detection marks. *)
Lemma pose_onResults_frame lms s :
  let s' := pose_onResults lms s in
  Features.speechDetected (features s') = Features.speechDetected (features s)
  /\ LiveStats.speechDetected (liveStats s') = LiveStats.speechDetected (liveStats s)
  /\ Features.interactionBehavior (features s')
     = Features.interactionBehavior (features s)
  /\ Features.handMovementHistory (features s')
     = Features.handMovementHistory (features s)
  /\ isScanning s' = isScanning s
  /\ delivered s' = delivered s.
Proof.
  unfold pose_onResults.
  destruct (isScanning s) eqn:Hs; [|now rewrite Hs].
  destruct lms as [landmarks|]; [|now rewrite Hs].
  destruct (analyzePose_frame landmarks s) as (H1 & H2 & H3 & H4 & H5 & H6 & H7).
  destruct (landmarks !! 0); simpl; rewrite ?H1, ?H3, ?H4, ?H5, ?H6, ?H7, ?Hs;
    repeat split.
Qed.

(** The gaze after a pose frame seen while scanning. *)
Lemma pose_onResults_gaze lms s :
  isScanning s = true ->
  Features.gazePattern (features (pose_onResults lms s))
  = match gazeOfFrame (PoseResults lms) with
    | Some g => Some g
    | None => Features.gazePattern (features s)
    end.
Proof.
  intros Hs. unfold pose_onResults, gazeOfFrame. rewrite Hs.
  destruct lms as [landmarks|]; [|reflexivity].
  destruct (analyzePose_frame landmarks s) as (_ & H2 & _).
  destruct (landmarks !! 0); simpl; [reflexivity | exact H2].
Qed.

(** The posture after a pose frame seen while scanning. *)
Lemma pose_onResults_posture lms s :
  isScanning s = true ->
  Features.posture (features (pose_onResults lms s))
  = match postureOfFrame (PoseResults lms) with
    | Some p => Some p
    | None => Features.posture (features s)
    end.
Proof.
  intros Hs. unfold pose_onResults. rewrite Hs.
  destruct lms as [landmarks|]; [|reflexivity].
  destruct (landmarks !! 0); simpl; apply analyzePose_posture.
Qed.

Lemma observe_isScanning s e : isScanning (observe s e) = isScanning s.
Proof.
  destruct e as [lms t|lms|event]; simpl.
  - apply hands_onResults_frame.
  - apply pose_onResults_frame.
  - apply recognition_onresult_spec.
Qed.

Lemma observe_delivered s e : delivered (observe s e) = delivered s.
Proof.
  destruct e as [lms t|lms|event]; simpl.
  - apply hands_onResults_frame.
  - apply pose_onResults_frame.
  - apply recognition_onresult_spec.
Qed.

Lemma observe_interactionBehavior s e :
  Features.interactionBehavior (features (observe s e))
  = Features.interactionBehavior (features s).
Proof.
  destruct e as [lms t|lms|event]; simpl.
  - apply hands_onResults_frame.
  - apply pose_onResults_frame.
  - apply recognition_onresult_spec.
Qed.

Lemma observe_gaze s e :
  isScanning s = true ->
  Features.gazePattern (features (observe s e))
  = match gazeOfFrame e with
    | Some g => Some g
    | None => Features.gazePattern (features s)
    end.
Proof.
  intros Hs. destruct e as [lms t|lms|event]; simpl gazeOfFrame.
  - apply hands_onResults_frame.
  - now apply pose_onResults_gaze.
  - apply recognition_onresult_spec.
Qed.

Lemma observe_posture s e :
  isScanning s = true ->
  Features.posture (features (observe s e))
  = match postureOfFrame e with
    | Some p => Some p
    | None => Features.posture (features s)
    end.
Proof.
  intros Hs. destruct e as [lms t|lms|event]; simpl postureOfFrame.
  - apply hands_onResults_frame.
  - now apply pose_onResults_posture.
  - apply recognition_onresult_spec.
Qed.

Lemma observe_speech s e :
  Features.speechDetected (features (observe s e))
  = (Features.speechDetected (features s) || bringsFinalSpeech e)%bool
  /\ LiveStats.speechDetected (liveStats (observe s e))
     = (LiveStats.speechDetected (liveStats s) || bringsFinalSpeech e)%bool.
Proof.
  destruct e as [lms t|lms|event]; simpl observe; simpl bringsFinalSpeech.
  - rewrite !orb_false_r. split; apply hands_onResults_frame.
  - rewrite !orb_false_r. split; apply pose_onResults_frame.
  - split; apply recognition_onresult_spec.
Qed.

Lemma observe_freq_other s e : isHandsEvent e = false -> freq (observe s e) = freq s.
Proof.
  destruct e as [lms t|lms|event]; simpl; intros H; [discriminate| |].
  - apply pose_onResults_freq.
  - apply recognition_onresult_spec.
Qed.

(** Any action leaves the accumulator where it was or bumps it once. *)
Lemma step_freq fired s a :
  onLadder (freq s) ->
  freq (step fired s a) = freq s \/ freq (step fired s a) = bump (freq s).
Proof.
  intros Hl. destruct a as [granted| [lms t|lms|event] | |now]; simpl.
  - left. now destruct granted.
  - destruct (hands_onResults_freq lms t s) as [H|[H|H]]; rewrite H.
    + now left.
    + left. now apply onLadder_capped.
    + now right.
  - left. apply pose_onResults_freq.
  - left. apply recognition_onresult_spec.
  - now left.
  - left. now destruct fired.
Qed.

(** What one action hands to [onScanComplete]. *)
Lemma step_delivered fired s a :
  delivered (step fired s a)
  = delivered s
    ++ match a, fired with
       | CompleteScan now, Some clicked =>
           [scanResults (features clicked) (liveStats clicked) now]
       | _, _ => []
       end.
Proof.
  destruct a as [granted|e| |now]; simpl; rewrite ?app_nil_r.
  - now destruct granted.
  - apply observe_delivered.
  - reflexivity.
  - destruct fired; simpl; now rewrite ?app_nil_r.
Qed.

Lemma step_speech fired s a :
  Features.speechDetected (features (step fired s a))
  = (Features.speechDetected (features s)
     || existsb bringsFinalSpeech (observed [a]))%bool
  /\ LiveStats.speechDetected (liveStats (step fired s a))
     = (LiveStats.speechDetected (liveStats s)
        || existsb bringsFinalSpeech (observed [a]))%bool.
Proof.
  destruct a as [granted|e| |now].
  - simpl. rewrite !orb_false_r. now destruct granted.
  - change (existsb bringsFinalSpeech (observed [Observe e]))
      with (bringsFinalSpeech e || false)%bool.
    rewrite orb_false_r. apply observe_speech.
  - simpl. now rewrite !orb_false_r.
  - simpl. rewrite !orb_false_r. now destruct fired.
Qed.

(** An action that is no hand frame leaves the accumulator alone, one that
    is no pose frame leaves gaze and posture alone, and nothing sets the
    interaction behaviour. *)
Lemma step_quiet fired s a :
  (Forall (fun e => isHandsEvent e = false) (observed [a]) ->
   freq (step fired s a) = freq s)
  /\ (Forall (fun e => isPoseEvent e = false) (observed [a]) ->
      Features.gazePattern (features (step fired s a))
      = Features.gazePattern (features s)
      /\ Features.posture (features (step fired s a))
         = Features.posture (features s))
  /\ Features.interactionBehavior (features (step fired s a))
     = Features.interactionBehavior (features s).
Proof.
  destruct a as [granted|e| |now].
  - simpl. destruct granted; repeat split.
  - change (observed [Observe e]) with [e]. split; [|split].
    + intros He%Forall_inv. now apply observe_freq_other.
    + intros He%Forall_inv.
      destruct e as [lms t|lms|event]; simpl in *; [|discriminate|].
      * split; apply hands_onResults_frame.
      * split; apply recognition_onresult_spec.
    + apply observe_interactionBehavior.
  - simpl. repeat split.
  - simpl. destruct fired; repeat split.
Qed.

End Callbacks.

(* ------------------------------------------------------------------ *)
(** ** Along a run *)

Section Runs.

Lemma play_snoc s actions a : play s (actions ++ [a]) = act (play s actions) a.
Proof. unfold play. now rewrite fold_left_app. Qed.

Lemma run_snoc s actions a :
  run s (actions ++ [a])
  = step (head (timers (play s actions))) (run s actions) a.
Proof. unfold run. now rewrite play_snoc. Qed.

Lemma play_app s l1 l2 : play s (l1 ++ l2) = fold_left act l2 (play s l1).
Proof. unfold play. now rewrite fold_left_app. Qed.

(** Perception events leave the armed timers alone. *)
Lemma act_observe c events :
  fold_left act (Observe <$> events) c
  = mkComponent (fold_left observe events (current c)) (timers c).
Proof.
  revert c. induction events as [|e events IH]; intros c; simpl.
  - now destruct c.
  - now rewrite IH.
Qed.

(** A first scan in progress: its state, and its one armed timer, which
    holds the render of the freshly mounted component. *)
Lemma play_scanning events :
  play mounted ([StartScan true] ++ (Observe <$> events))
  = mkComponent (scanning events) [mounted].
Proof. rewrite play_app. apply act_observe. Qed.

Lemma observe_delivered_fold events s :
  delivered (fold_left observe events s) = delivered s.
Proof.
  revert s. induction events as [|e events IH]; intros s; [reflexivity|].
  simpl. now rewrite IH, observe_delivered.
Qed.

Lemma scanning_snoc events e :
  scanning (events ++ [e]) = observe (scanning events) e.
Proof. unfold scanning. now rewrite fold_left_app. Qed.

(** The accumulator never leaves the ladder. *)
Lemma run_onLadder actions : onLadder (freq (run mounted actions)).
Proof.
  induction actions as [|a actions IH] using rev_ind.
  - apply onLadder_zero.
  - rewrite run_snoc.
    destruct (step_freq (head (timers (play mounted actions)))
                (run mounted actions) a IH) as [-> | ->];
      [exact IH | now apply onLadder_bump].
Qed.

Lemma scanning_isScanning events : isScanning (scanning events) = true.
Proof.
  induction events as [|e events IH] using rev_ind; [reflexivity|].
  now rewrite scanning_snoc, observe_isScanning.
Qed.

Lemma scanning_delivered events : delivered (scanning events) = [].
Proof.
  induction events as [|e events IH] using rev_ind; [reflexivity|].
  now rewrite scanning_snoc, observe_delivered.
Qed.

(** The first window after mount hands on the vector of the mount-time
    render, whatever was observed. *)
Lemma window_delivers events now :
  window events now = [ScanResults.mk (neutralVector now) scanDuration].
Proof.
  unfold window, run. rewrite app_assoc, play_snoc, play_scanning.
  simpl. now rewrite scanning_delivered.
Qed.

Lemma mostRecent_snoc {A} (f : Event -> option A) events e :
  mostRecent f (events ++ [e])
  = match f e with Some v => Some v | None => mostRecent f events end.
Proof.
  unfold mostRecent. rewrite omap_app. simpl.
  destruct (f e); [apply last_snoc | now rewrite app_nil_r].
Qed.

Lemma scanning_gaze events :
  Features.gazePattern (features (scanning events)) = mostRecent gazeOfFrame events.
Proof.
  induction events as [|e events IH] using rev_ind; [reflexivity|].
  rewrite scanning_snoc, mostRecent_snoc, observe_gaze, IH;
    [reflexivity | apply scanning_isScanning].
Qed.

Lemma scanning_posture events :
  Features.posture (features (scanning events)) = mostRecent postureOfFrame events.
Proof.
  induction events as [|e events IH] using rev_ind; [reflexivity|].
  rewrite scanning_snoc, mostRecent_snoc, observe_posture, IH;
    [reflexivity | apply scanning_isScanning].
Qed.

Lemma scanning_speech events :
  Features.speechDetected (features (scanning events))
  = existsb bringsFinalSpeech events
  /\ LiveStats.speechDetected (liveStats (scanning events))
     = existsb bringsFinalSpeech events.
Proof.
  induction events as [|e events [IH1 IH2]] using rev_ind; [now split|].
  rewrite scanning_snoc, existsb_app. simpl. rewrite orb_false_r.
  destruct (observe_speech (scanning events) e) as [-> ->].
  now rewrite IH1, IH2.
Qed.

Lemma observed_app l1 l2 : observed (l1 ++ l2) = observed l1 ++ observed l2.
Proof. apply omap_app. Qed.

Lemma run_speech actions :
  Features.speechDetected (features (run mounted actions))
  = existsb bringsFinalSpeech (observed actions)
  /\ LiveStats.speechDetected (liveStats (run mounted actions))
     = existsb bringsFinalSpeech (observed actions).
Proof.
  induction actions as [|a actions [IH1 IH2]] using rev_ind; [now split|].
  rewrite run_snoc, observed_app, existsb_app.
  destruct (step_speech (head (timers (play mounted actions)))
              (run mounted actions) a) as [-> ->].
  now rewrite IH1, IH2.
Qed.

(** A feature whose source sent nothing since the component was mounted is
    where it was at mount. *)
Lemma run_quiet actions :
  (Forall (fun e => isHandsEvent e = false) (observed actions) ->
   freq (run mounted actions) = 0%float)
  /\ (Forall (fun e => isPoseEvent e = false) (observed actions) ->
      Features.gazePattern (features (run mounted actions)) = None
      /\ Features.posture (features (run mounted actions)) = None)
  /\ Features.interactionBehavior (features (run mounted actions)) = None.
Proof.
  induction actions as [|a actions (IH1 & IH2 & IH3)] using rev_ind;
    [repeat split|].
  rewrite run_snoc, observed_app.
  destruct (step_quiet (head (timers (play mounted actions)))
              (run mounted actions) a) as (H1 & H2 & H3).
  split; [|split].
  - intros [Hall Ha]%Forall_app. rewrite (H1 Ha). now apply IH1.
  - intros [Hall Ha]%Forall_app. destruct (H2 Ha) as [-> ->]. now apply IH2.
  - now rewrite H3.
Qed.


Lemma clickedAt_snoc actions a t : clickedAt actions t -> clickedAt (actions ++ [a]) t.
Proof.
  intros (before & after & -> & ->). exists before, (after ++ [a]).
  split; [|reflexivity]. now rewrite <- app_assoc.
Qed.

(** Every armed timer holds the render of a Start click of the run. *)
Lemma play_clicked actions : Forall (clickedAt actions) (timers (play mounted actions)).
Proof.
  induction actions as [|a actions IH] using rev_ind; [constructor|].
  rewrite play_snoc.
  assert (Hold : Forall (clickedAt (actions ++ [a])) (timers (play mounted actions))).
  { eapply Forall_impl; [exact IH|]. intros t. apply clickedAt_snoc. }
  destruct a as [[|]|e| |now]; simpl; try exact Hold.
  - apply Forall_app. split; [exact Hold|].
    apply Forall_cons_2; [|apply Forall_nil_2].
    exists actions, []. split; reflexivity.
  - destruct (timers (play mounted actions)) as [|t ts]; [exact Hold|].
    now apply Forall_cons_1 in Hold as [_ Hold].
Qed.

(** Every delivered result was built by the render of a Start click. *)
Lemma run_delivered_clicked actions :
  Forall (fun r => exists t now,
              clickedAt actions t
              /\ r = scanResults (features t) (liveStats t) now)
         (delivered (run mounted actions)).
Proof.
  induction actions as [|a actions IH] using rev_ind; [constructor|].
  rewrite run_snoc, step_delivered.
  apply Forall_app. split.
  - eapply Forall_impl; [exact IH|].
    intros r (t & now & Ht & ->). exists t, now.
    split; [now apply clickedAt_snoc | reflexivity].
  - pose proof (play_clicked actions) as Hc.
    destruct a as [granted|e| |now]; try apply Forall_nil_2.
    destruct (timers (play mounted actions)) as [|t ts]; simpl;
      [apply Forall_nil_2|].
    apply Forall_cons_1 in Hc as [Ht _].
    apply Forall_cons_2; [|apply Forall_nil_2].
    exists t, now. split; [now apply clickedAt_snoc | reflexivity].
Qed.

End Runs.

(* ------------------------------------------------------------------ *)
(** ** The acceptance gate of the recommendation card *)

Section AcceptGate.

Lemma acceptEnabled_isHigh (r : Recommendation.t) :
  acceptEnabled (Some r) = isHighConfidence (Recommendation.confidence r).
Proof. unfold acceptEnabled. simpl. apply negb_involutive. Qed.

(** C1, as stated, fails at the threshold itself: a recommendation whose
    confidence is exactly 0.7 satisfies [confidence >= 0.7], yet its accept
    button is disabled. *)
Lemma accept_disabled_at_threshold :
  ~ (acceptEnabled (Some Sample.atThreshold) = true
     <-> (0.7 <=? Recommendation.confidence Sample.atThreshold)%float = true).
Proof. vm_compute. intros [_ H]. discriminate (H eq_refl). Qed.

(** C1, amended: the card is rendered for every recommendation, and its
    accept button is enabled exactly when the confidence is strictly greater
    than 0.7; at or below 0.7 direct acceptance is disabled and the
    low-confidence warning is shown. *)
Theorem accept_enabled_iff_above_threshold (r : Recommendation.t) :
  (exists card,
      RecommendationCard (Some r) = Some card
      /\ Card.acceptDisabled card
         = negb (0.7 <? Recommendation.confidence r)%float
      /\ Card.confidenceWarning card = Card.acceptDisabled card)
  /\ (acceptEnabled (Some r) = true
      <-> (0.7 <? Recommendation.confidence r)%float = true)
  /\ ((Recommendation.confidence r <=? 0.7)%float = true
      -> acceptEnabled (Some r) = false).
Proof.
  split; [|split].
  - eexists. split; [reflexivity|]. split; reflexivity.
  - now rewrite acceptEnabled_isHigh.
  - intros Hle. rewrite acceptEnabled_isHigh.
    now apply FloatOrder.leb_not_ltb.
Qed.

End AcceptGate.

(* ------------------------------------------------------------------ *)
(** ** Cancelling a scan *)

Section Cancellation.

(** C2 is not met by the code: stopping a scan hands nothing on and leaves
    the timer of the Start click armed; when that timer fires it hands on
    the vector of the render of the click, not the vector of what was
    observed.  For a first scan stopped after any [events]: the component
    state holds what the events accumulated, nothing was handed on by the
    stop, the timer is still pending, and its firing hands on the
    all-neutral vector.  No stop, wherever it comes in a run, hands a
    result on or disarms a timer.  So a scan stopped after it heard a
    sentence has the speech flag in its state and hands on a vector
    without it. *)
Theorem stopped_scan_delivers_click_time_vector (events : list Event)
    (actions : list Action) (now : string) :
  let stopped :=
    play mounted ([StartScan true] ++ (Observe <$> events) ++ [StopScan]) in
  (isScanning (current stopped) = false
   /\ features (current stopped) = features (scanning events)
   /\ liveStats (current stopped) = liveStats (scanning events)
   /\ delivered (current stopped) = []
   /\ timers stopped = [mounted])
  /\ delivered (current (act stopped (CompleteScan now)))
     = [ScanResults.mk (FeatureVector.mk 0 false normal standing None now)
                       20000]
  /\ (delivered (run mounted (actions ++ [StopScan]))
      = delivered (run mounted actions)
      /\ timers (play mounted (actions ++ [StopScan]))
         = timers (play mounted actions))
  /\ (let heard :=
        play mounted [StartScan true; Observe Sample.sentence; StopScan] in
      Features.speechDetected (features (current heard)) = true
      /\ FeatureVector.speechDetected
           <$> (ScanResults.features
                  <$> delivered (current (act heard (CompleteScan now))))
         = [false]).
Proof.
  intros stopped.
  assert (Hs : stopped = mkComponent (stopScan (scanning events)) [mounted]).
  { unfold stopped. now rewrite app_assoc, play_snoc, play_scanning. }
  rewrite Hs. split; [|split; [|split]].
  - simpl. rewrite scanning_delivered. repeat split.
  - simpl. now rewrite scanning_delivered.
  - unfold run. rewrite play_snoc. split; reflexivity.
  - split; reflexivity.
Qed.

End Cancellation.

(* ------------------------------------------------------------------ *)
(** ** The hand-sign accumulator *)

Section HandSignFrequency.

(** C3: a hand frame seen while scanning appends the wrists of its hands to
    the history, which is cut to its last 10 samples; when the two most
    recent samples are more than 0.01 apart, by the Euclidean distance of
    their x and y, the accumulator grows by 0.2, up to the cap of 10;
    otherwise (also when there are not yet two samples) it is unchanged;
    it never exceeds 10. *)
Theorem hand_frame_accumulates (actions : list Action)
    (landmarks : list Hand.t) (currentTime : Z) :
  let s := run mounted actions in
  let s' := hands_onResults (Some landmarks) currentTime s in
  let history :=
    Features.handMovementHistory (features s)
    ++ map (fun hand =>
              Position.mk (Landmark.x (Hand.wrist hand))
                          (Landmark.y (Hand.wrist hand))
                          (Landmark.z (Hand.wrist hand)) currentTime)
           landmarks in
  let recent := drop (length history - 10) history in
  isScanning s = true ->
  landmarks <> [] ->
  Features.handMovementHistory (features s') = recent
  /\ length recent <= 10
  /\ (forall older prevPos lastPos,
         recent = older ++ [prevPos; lastPos] ->
         let dx := (Position.x lastPos - Position.x prevPos)%float in
         let dy := (Position.y lastPos - Position.y prevPos)%float in
         freq s' = if (0.01 <? PrimFloat.sqrt (dx * dx + dy * dy))%float
                   then (if (freq s + 0.2 <? 10)%float
                         then (freq s + 0.2)%float else 10%float)
                   else freq s)
  /\ (length recent < 2 -> freq s' = freq s)
  /\ (freq s' <=? 10)%float = true.
Proof.
  intros s s' history recent Hscan Hne.
  assert (Hlen : 0 < length landmarks) by (destruct landmarks; simpl; [done | lia]).
  pose proof (run_onLadder actions) as Hl. fold s in Hl.
  assert (Hrecent : recent
                    = JS.slice_last 10 (Features.handMovementHistory (features s)
                                        ++ handPositions landmarks currentTime))
    by reflexivity.
  assert (Hs' : freq s' = JS.Math_min (movementFreq recent (freq s)) 10).
  { rewrite Hrecent. unfold s', hands_onResults, analyzeHandGestures.
    rewrite Hscan. destruct (decide _); [reflexivity | lia]. }
  split; [|split; [|split; [|split]]].
  - rewrite Hrecent. unfold s', hands_onResults, analyzeHandGestures.
    rewrite Hscan. destruct (decide _); [reflexivity | lia].
  - rewrite Hrecent. apply slice_last_length.
  - intros older prevPos lastPos Hrec dx dy.
    rewrite Hs', Hrec, movementFreq_two.
    change (PrimFloat.sqrt (dx * dx + dy * dy)) with (distance lastPos prevPos).
    destruct (_ <? _)%float; [|now apply onLadder_capped].
    now apply onLadder_bump_plain.
  - intros Hfew. rewrite Hs', movementFreq_few by exact Hfew.
    now apply onLadder_capped.
  - rewrite Hs'.
    destruct (movementFreq_cases recent (freq s)) as [-> | ->].
    + rewrite onLadder_capped by exact Hl. now apply onLadder_range.
    + apply onLadder_range. now apply onLadder_bump.
Qed.

(** A second hand frame, 0.1 to the right of the first: one increment. *)
Lemma hand_frame_accumulates_witness :
  isScanning (run mounted Sample.oneHandSeen) = true
  /\ freq (hands_onResults (Some [Sample.hand_at 0.6 0.5]) 40
             (run mounted Sample.oneHandSeen))
     = 0.2%float.
Proof.
  split; [reflexivity|].
  destruct (hand_frame_accumulates Sample.oneHandSeen
              [Sample.hand_at 0.6 0.5] 40 eq_refl)
    as (_ & _ & H & _); [discriminate|].
  exact (H [] _ _ eq_refl).
Defined.

Lemma run_freq_le_app actions more :
  (freq (run mounted actions) <=? freq (run mounted (actions ++ more)))%float
  = true.
Proof.
  induction more as [|a more IH] using rev_ind.
  - rewrite app_nil_r. apply onLadder_refl, run_onLadder.
  - rewrite app_assoc, run_snoc.
    pose proof (run_onLadder (actions ++ more)) as Hl.
    destruct (step_freq (head (timers (play mounted (actions ++ more))))
                _ a Hl) as [-> | ->]; [exact IH|].
    eapply FloatOrder.leb_trans; [exact IH | now apply onLadder_le_bump].
Qed.

(** C4: whatever happened since the component was mounted, and whatever
    happens next, the accumulator lies in [0, 10] and does not decrease;
    it does not decrease over any further run either, and the vector
    [completeScan] builds from such a state reports it as it is. *)
Theorem handSignFreq_bounded_monotone (actions more : list Action)
    (fired : option Scanner) (a : Action) (now : string) :
  let s := run mounted actions in
  let s' := step fired s a in
  ((0 <=? freq s')%float = true /\ (freq s' <=? 10)%float = true)
  /\ (freq s <=? freq s')%float = true
  /\ (freq s <=? freq (run mounted (actions ++ more)))%float = true
  /\ FeatureVector.handSignFreq (vectorOf s' now) = freq s'.
Proof.
  intros s s'.
  pose proof (run_onLadder actions) as Hl. fold s in Hl.
  assert (Hl' : onLadder (freq s')).
  { destruct (step_freq fired s a Hl) as [H|H]; fold s' in H; rewrite H;
      [exact Hl | now apply onLadder_bump]. }
  split; [|split; [|split]].
  - now apply onLadder_range.
  - destruct (step_freq fired s a Hl) as [H|H]; fold s' in H; rewrite H;
      [now apply onLadder_refl | now apply onLadder_le_bump].
  - apply run_freq_le_app.
  - unfold vectorOf. simpl. now apply onLadder_capped.
Qed.

End HandSignFrequency.

(* ------------------------------------------------------------------ *)
(** ** Neutral defaults *)

Section NeutralDefaults.



End NeutralDefaults.

(* ------------------------------------------------------------------ *)
(** ** Posture and gaze of a pose frame *)

Section PoseFrame.

(** C6: once both hips and both ankles are there, the posture set by
    [analyzePose] (and so by a pose frame seen while scanning) is seated
    when [|hipY - ankleY| < 0.2] and standing otherwise, with [hipY] and
    [ankleY] the averages of the two hip and the two ankle heights. *)
Theorem posture_from_hips_and_ankles (landmarks : list Landmark.t)
    (leftHip rightHip leftAnkle rightAnkle : Landmark.t) (s : Scanner) :
  let hipY := ((Landmark.y leftHip + Landmark.y rightHip) / 2)%float in
  let ankleY := ((Landmark.y leftAnkle + Landmark.y rightAnkle) / 2)%float in
  let expected :=
    if (PrimFloat.abs (hipY - ankleY) <? 0.2)%float then seated else standing in
  landmarks !! 23 = Some leftHip ->
  landmarks !! 24 = Some rightHip ->
  landmarks !! 27 = Some leftAnkle ->
  landmarks !! 28 = Some rightAnkle ->
  Features.posture (features (analyzePose landmarks s)) = Some expected
  /\ (isScanning s = true ->
      Features.posture (features (pose_onResults (Some landmarks) s))
      = Some expected).
Proof.
  intros hipY ankleY expected H23 H24 H27 H28.
  assert (Hp : postureOfFrame (PoseResults (Some landmarks)) = Some expected).
  { unfold postureOfFrame. rewrite H23, H24, H27, H28. reflexivity. }
  split.
  - now rewrite analyzePose_posture, Hp.
  - intros Hs. now rewrite pose_onResults_posture, Hp.
Qed.

(** Hips at height 0.5 and ankles at 0.9: standing. *)
Lemma posture_from_hips_and_ankles_witness :
  Features.posture
    (features (pose_onResults (Some Sample.uprightPose) (startScan true mounted)))
  = Some standing.
Proof.
  refine (proj2 (posture_from_hips_and_ankles Sample.uprightPose
                   (Sample.at_xy 0.45 0.5) (Sample.at_xy 0.55 0.5)
                   (Sample.at_xy 0.45 0.9) (Sample.at_xy 0.55 0.9)
                   (startScan true mounted)
                   eq_refl eq_refl eq_refl eq_refl) eq_refl).
Defined.

(** C7: a pose frame with a nose landmark, seen while scanning, sets the
    gaze to inconsistent exactly when the nose's x is below 0.3 or above
    0.7, and to normal otherwise. *)
Theorem gaze_from_nose (landmarks : list Landmark.t) (nose : Landmark.t)
    (s : Scanner) :
  let gaze := Features.gazePattern (features (pose_onResults (Some landmarks) s)) in
  isScanning s = true ->
  landmarks !! 0 = Some nose ->
  (gaze = Some inconsistent
   <-> ((Landmark.x nose <? 0.3)%float = true
        \/ (0.7 <? Landmark.x nose)%float = true))
  /\ (gaze = Some normal
      <-> ((Landmark.x nose <? 0.3)%float = false
           /\ (0.7 <? Landmark.x nose)%float = false)).
Proof.
  intros gaze Hs Hnose. unfold gaze.
  rewrite pose_onResults_gaze by exact Hs.
  unfold gazeOfFrame. rewrite Hnose. simpl. unfold classifyGaze.
  destruct (Landmark.x nose <? 0.3)%float, (0.7 <? Landmark.x nose)%float;
    simpl; split; split; try tauto; try congruence; intros; intuition congruence.
Qed.

(** A nose at x = 0.5 gives a normal gaze. *)
Lemma gaze_from_nose_witness :
  Features.gazePattern
    (features (pose_onResults (Some Sample.uprightPose) (startScan true mounted)))
  = Some normal.
Proof.
  apply (gaze_from_nose Sample.uprightPose (Sample.at_xy 0.5 0.3)
           (startScan true mounted) eq_refl eq_refl).
  split; reflexivity.
Defined.


End PoseFrame.

(* ------------------------------------------------------------------ *)
(** ** Speech *)

Section Speech.

(** C8 is not met by the code: the speech flag of the component state is
    the disjunction, over the events observed, of "this event brought a
    finalized result", and nothing ever clears it; but the vector handed on
    is built from the render of the Start click, so each result reports
    the speech heard before its own Start click, and the first window
    reports none, whatever was said in it, also when one finalized
    sentence was heard. *)
Theorem delivered_speech_is_click_time (events : list Event)
    (actions more : list Action) (now : string) :
  (Features.speechDetected (features (scanning events))
   = existsb bringsFinalSpeech events
   /\ (Features.speechDetected (features (scanning events)) = true
       <-> exists event r,
             SpeechResults event ∈ events
             /\ r ∈ drop (SpeechEvent.resultIndex event) (SpeechEvent.results event)
             /\ SpeechResult.isFinal r = true)
   /\ (Features.speechDetected (features (run mounted actions)) = true
       -> Features.speechDetected (features (run mounted (actions ++ more)))
          = true))
  /\ (exists v,
         window events now = [ScanResults.mk v 20000]
         /\ FeatureVector.speechDetected v = false)
  /\ Forall
       (fun r =>
          exists before after,
            actions = before ++ StartScan true :: after
            /\ FeatureVector.speechDetected (ScanResults.features r)
               = existsb bringsFinalSpeech (observed before))
       (delivered (run mounted actions))
  /\ (Features.speechDetected (features (scanning [Sample.sentence])) = true
      /\ LiveStats.speechDetected (liveStats (scanning [Sample.sentence])) = true
      /\ window [Sample.sentence] now
         = [ScanResults.mk (FeatureVector.mk 0 false normal standing None now)
                           20000]).
Proof.
  split; [|split; [|split; [|repeat split]]].
  - destruct (scanning_speech events) as [Hs _].
    split; [exact Hs|]. split.
    + rewrite Hs. split.
      * intros (e & He & Hb)%existsb_exists.
        destruct e as [| |event]; try discriminate. simpl in Hb.
        apply bool_decide_eq_true_1 in Hb.
        destruct (finalizedResults event) as [|r rs] eqn:Hf; [done|].
        assert (Hr : r ∈ finalizedResults event)
          by (rewrite Hf; apply list_elem_of_here).
        apply list_elem_of_filter in Hr as [Hfinal Hr].
        exists event, r. split; [now apply list_elem_of_In|]. now split.
      * intros (event & r & He & Hr & Hfinal). apply existsb_exists.
        exists (SpeechResults event). split; [now apply list_elem_of_In|].
        simpl. apply bool_decide_eq_true_2. intros Hnil.
        assert (Hin : r ∈ finalizedResults event)
          by (apply list_elem_of_filter; now split).
        rewrite Hnil in Hin. now apply not_elem_of_nil in Hin.
    + destruct (run_speech actions) as [-> _].
      destruct (run_speech (actions ++ more)) as [-> _].
      rewrite observed_app, existsb_app. now intros ->.
  - exists (neutralVector now). split; [apply window_delivers | reflexivity].
  - eapply Forall_impl; [apply run_delivered_clicked|].
    intros r (t & stamp & (before & after & -> & ->) & ->).
    exists before, after. split; [reflexivity|]. simpl.
    destruct (run_speech before) as [-> ->]. apply orb_diag.
Qed.

End Speech.

(* ------------------------------------------------------------------ *)
(** ** The tie-break of the recommended mode *)

Section TieBreak.

Variable scores : Mode -> float.
Hypothesis scores_ordered : forall m, ordered (scores m).

(** Scanning [l] from the current best [best]: the result holds the top
    score of [best :: l], and everything that stands before it in
    [best :: l] scores strictly less. *)
Lemma fold_better_first_top (l : list Mode) (best : Mode) :
  let r := fold_left (better scores) l best in
  (forall m, m ∈ best :: l -> (scores m <=? scores r)%float = true)
  /\ exists l1 l2,
      best :: l = l1 ++ r :: l2
      /\ forall m, m ∈ l1 -> (scores m <? scores r)%float = true.
Proof using scores_ordered.
  revert best. induction l as [|x l IH]; intros best; cbn [fold_left].
  - split.
    + intros m ->%list_elem_of_singleton. apply scores_ordered.
    + exists [], []. split; [reflexivity|]. intros m Hm.
      now apply not_elem_of_nil in Hm.
  - unfold better at 2 4 6.
    destruct (scores best <? scores x)%float eqn:Hlt.
    + destruct (IH x) as (Htop & l1 & l2 & Heq & Hbefore).
      assert (Hbest : (scores best <? scores (fold_left (better scores) l x))%float
                      = true).
      { eapply FloatOrder.ltb_leb_trans; [exact Hlt|].
        apply Htop, list_elem_of_here. }
      split.
      * intros m [->|Hm]%elem_of_cons; [|now apply Htop].
        now apply FloatOrder.ltb_leb.
      * exists (best :: l1), l2. split; [simpl; now rewrite Heq|].
        intros m [->|Hm]%elem_of_cons; [exact Hbest | now apply Hbefore].
    + destruct (IH best) as (Htop & l1 & l2 & Heq & Hbefore).
      set (r := fold_left (better scores) l best) in *.
      assert (Hx : (scores x <=? scores best)%float = true)
        by (apply FloatOrder.leb_total; auto).
      split.
      * intros m [->|[->|Hm]%elem_of_cons]%elem_of_cons.
        -- apply Htop, list_elem_of_here.
        -- eapply FloatOrder.leb_trans; [exact Hx|].
           apply Htop, list_elem_of_here.
        -- apply Htop. now apply list_elem_of_further.
      * destruct l1 as [|b l1]; simpl in Heq; injection Heq as Hb Hl.
        -- exists [], (x :: l). split; [simpl; now rewrite <- Hb|].
           intros m Hm. now apply not_elem_of_nil in Hm.
        -- exists (b :: x :: l1), l2. split; [simpl; now rewrite Hb, <- Hl|].
           intros m [->|[->|Hm]%elem_of_cons]%elem_of_cons.
           ++ apply Hbefore, list_elem_of_here.
           ++ eapply FloatOrder.leb_ltb_trans; [exact Hx|].
              rewrite Hb. apply Hbefore, list_elem_of_here.
           ++ apply Hbefore. now apply list_elem_of_further.
Qed.

End TieBreak.

(** C9: for every score map with scores in [0, 1], the chosen mode holds
    the top score and no mode holding the top score stands before it in
    the priority order voice, sign, text, gesture, motor; so among two or
    more modes that share the top score it is the earliest one. *)
Theorem tie_goes_to_earliest_in_priority (scores : Mode -> float) :
  validScores scores ->
  isTop scores (recommendedMode scores)
  /\ (forall m, isTop scores m -> rank (recommendedMode scores) <= rank m)
  /\ (forall m1 m2,
         m1 <> m2 -> isTop scores m1 -> isTop scores m2 ->
         rank (recommendedMode scores) <= Nat.min (rank m1) (rank m2)).
Proof.
  intros Hvalid.
  assert (Hord : forall m, ordered (scores m)).
  { intros m. apply (FloatOrder.leb_ordered_r 0). apply Hvalid. }
  destruct (fold_better_first_top scores Hord [sign; text; gesture; motor] voice)
    as (Htop & l1 & l2 & Heq & Hbefore).
  change (fold_left (better scores) [sign; text; gesture; motor] voice)
    with (recommendedMode scores) in Htop, Heq, Hbefore.
  assert (Hall : isTop scores (recommendedMode scores)).
  { intros m. apply Htop. destruct m; repeat constructor. }
  assert (Hrank : forall m, isTop scores m ->
                            rank (recommendedMode scores) <= rank m).
  { intros m Hm.
    assert (Hnot : m ∉ l1).
    { intros Hin. specialize (Hbefore m Hin).
      now rewrite (FloatOrder.leb_not_ltb _ _ (Hm (recommendedMode scores)))
        in Hbefore. }
    clear Htop Hbefore Hall Hm.
    destruct l1 as [|a [|b [|c [|d [|e l1]]]]]; simpl in Heq;
      injection Heq; intros; subst;
      repeat match goal with
             | H : _ = recommendedMode scores |- _ => rewrite <- H
             | H : recommendedMode scores = _ |- _ => rewrite H
             end;
      try (destruct m; simpl; try lia; exfalso; apply Hnot;
           solve [repeat constructor]). }
  split; [exact Hall|]. split; [exact Hrank|].
  intros m1 m2 _ H1 H2. apply Nat.min_glb; now apply Hrank.
Qed.

(** Sign and text share the top score 0.9: sign, the earlier one, wins. *)
Lemma tie_goes_to_earliest_in_priority_witness :
  validScores Sample.tiedScores
  /\ recommendedMode Sample.tiedScores = sign
  /\ rank (recommendedMode Sample.tiedScores) <= Nat.min (rank sign) (rank text).
Proof.
  assert (Hvalid : validScores Sample.tiedScores)
    by (intros []; split; reflexivity).
  split; [exact Hvalid|]. split; [reflexivity|].
  apply (tie_goes_to_earliest_in_priority Sample.tiedScores Hvalid).
  - discriminate.
  - intros []; reflexivity.
  - intros []; reflexivity.
Defined.

(* ================================================================== *)
(** * Further properties of the scanner *)

Section MoreCallbacks.

Implicit Types (s : Scanner) (e : Event) (a : Action).

Lemma slice_last_app_one {A} (l : list A) (x : A) :
  JS.slice_last 5 (JS.slice_last 6 l) ++ [x] = JS.slice_last 6 (l ++ [x]).
Proof.
  unfold JS.slice_last. rewrite !length_drop, length_app, drop_drop. simpl.
  destruct (decide (length l <= 5)).
  - replace (length l - 6 + (length l - (length l - 6) - 5)) with 0 by lia.
    replace (length l + 1 - 6) with 0 by lia. reflexivity.
  - replace (length l - 6 + (length l - (length l - 6) - 5))
      with (length l - 5) by lia.
    replace (length l + 1 - 6) with (length l - 5) by lia.
    rewrite drop_app_le by lia. reflexivity.
Qed.

Lemma speechHistory_fold (ts : list string) (l : list string) :
  fold_left (fun h t => JS.slice_last 5 h ++ [t]) ts (JS.slice_last 6 l)
  = JS.slice_last 6 (l ++ ts).
Proof.
  revert l. induction ts as [|t ts IH]; intros l; simpl.
  - now rewrite app_nil_r.
  - rewrite slice_last_app_one, IH, <- app_assoc. reflexivity.
Qed.

Lemma onresult_loop_history rs flag s :
  Features.speechHistory (features (fold_left onresult_body rs (flag, s)).2)
  = fold_left (fun h t => JS.slice_last 5 h ++ [t])
      (SpeechResult.transcript
         <$> filter (fun r => SpeechResult.isFinal r = true) rs)
      (Features.speechHistory (features s)).
Proof.
  revert flag s. induction rs as [|r rs IH]; intros flag s; [reflexivity|].
  cbn [fold_left]. rewrite filter_cons.
  destruct (SpeechResult.isFinal r) eqn:Hf.
  - replace (onresult_body (flag, s) r)
      with (true, setFeatures (recordSpeech (SpeechResult.transcript r)) s)
      by (unfold onresult_body; now rewrite Hf).
    rewrite IH. destruct (decide _); [reflexivity | congruence].
  - replace (onresult_body (flag, s) r) with (flag, s)
      by (unfold onresult_body; now rewrite Hf).
    rewrite IH. destruct (decide _); [congruence | reflexivity].
Qed.

Lemma recognition_onresult_history event s :
  Features.speechHistory (features (recognition_onresult event s))
  = fold_left (fun h t => JS.slice_last 5 h ++ [t])
      (transcriptsOf (SpeechResults event))
      (Features.speechHistory (features s)).
Proof.
  unfold recognition_onresult, transcriptsOf, finalizedResults.
  rewrite <- onresult_loop_history with (flag := false).
  destruct (fold_left _ _ _) as [[] s1]; reflexivity.
Qed.

Lemma hands_onResults_speechHistory lms t s :
  Features.speechHistory (features (hands_onResults lms t s))
  = Features.speechHistory (features s).
Proof.
  unfold hands_onResults, analyzeHandGestures.
  destruct (isScanning s); [|reflexivity].
  destruct lms; [|reflexivity]. destruct (decide _); reflexivity.
Qed.

Lemma pose_onResults_speechHistory lms s :
  Features.speechHistory (features (pose_onResults lms s))
  = Features.speechHistory (features s).
Proof.
  unfold pose_onResults, analyzePose.
  destruct (isScanning s); [|reflexivity].
  destruct lms as [landmarks|]; [|reflexivity].
  destruct (landmarks !! 0); simpl;
    repeat (destruct (landmarks !! _); [|reflexivity]); reflexivity.
Qed.

Lemma step_speechHistory fired s a :
  Features.speechHistory (features (step fired s a))
  = fold_left (fun h t => JS.slice_last 5 h ++ [t])
      (allTranscripts (observed [a]))
      (Features.speechHistory (features s)).
Proof.
  destruct a as [granted|[lms t|lms|event]| |now].
  - simpl. now destruct granted.
  - apply hands_onResults_speechHistory.
  - apply pose_onResults_speechHistory.
  - change (allTranscripts (observed [Observe (SpeechResults event)]))
      with (transcriptsOf (SpeechResults event) ++ []).
    rewrite app_nil_r. apply recognition_onresult_history.
  - reflexivity.
  - simpl. now destruct fired.
Qed.

Lemma allTranscripts_app l1 l2 :
  allTranscripts (l1 ++ l2) = allTranscripts l1 ++ allTranscripts l2.
Proof. unfold allTranscripts. now rewrite fmap_app, join_app. Qed.

Lemma run_speechHistory actions :
  Features.speechHistory (features (run mounted actions))
  = JS.slice_last 6 (allTranscripts (observed actions)).
Proof.
  induction actions as [|a actions IH] using rev_ind; [reflexivity|].
  rewrite run_snoc, step_speechHistory, IH, speechHistory_fold.
  now rewrite observed_app, allTranscripts_app.
Qed.

Lemma step_handHistory fired s a :
  length (Features.handMovementHistory (features s)) <= 10 ->
  length (Features.handMovementHistory (features (step fired s a))) <= 10.
Proof.
  intros H. destruct a as [granted|[lms t|lms|event]| |now]; simpl.
  - now destruct granted.
  - unfold hands_onResults, analyzeHandGestures.
    destruct (isScanning s); [|exact H]. destruct lms; [|exact H].
    destruct (decide _); [|exact H]. simpl. apply slice_last_length.
  - destruct (pose_onResults_frame lms s) as (_ & _ & _ & -> & _). exact H.
  - destruct (recognition_onresult_spec event s)
      as (_ & _ & _ & _ & _ & _ & -> & _). exact H.
  - exact H.
  - now destruct fired.
Qed.

End MoreCallbacks.

(** X1: whatever happens to a mounted scanner, [handMovementHistory] never
    holds more than 10 positions and [speechHistory] never more than 6
    transcripts. *)
Theorem histories_bounded (actions : list Action) :
  length (Features.handMovementHistory (features (run mounted actions))) <= 10
  /\ length (Features.speechHistory (features (run mounted actions))) <= 6.
Proof.
  split.
  - induction actions as [|a actions IH] using rev_ind; [simpl; lia|].
    rewrite run_snoc. now apply step_handHistory.
  - rewrite run_speechHistory. apply slice_last_length.
Qed.

(** X2: [speechHistory] is made of the transcripts of the finalized results
    heard since the component was mounted, in the order heard, cut to the
    last six ([slice(-5)] followed by the new transcript keeps six). *)
Theorem speechHistory_last_six (actions : list Action) :
  let heard := allTranscripts (observed actions) in
  Features.speechHistory (features (run mounted actions))
  = drop (length heard - 6) heard.
Proof. apply run_speechHistory. Qed.

(** X3: the speech flag of [liveStats] and the one of [features] are always
    equal, both telling whether a finalized result was heard since the
    component was mounted (scanning or not); so [completeScan] reports
    exactly [features.speechDetected]. *)
Theorem speech_flags_agree (actions : list Action) (now : string) :
  let s := run mounted actions in
  LiveStats.speechDetected (liveStats s) = Features.speechDetected (features s)
  /\ Features.speechDetected (features s)
     = existsb bringsFinalSpeech (observed actions)
  /\ FeatureVector.speechDetected (vectorOf s now)
     = Features.speechDetected (features s).
Proof.
  intros s. destruct (run_speech actions) as [H1 H2]. fold s in H1, H2.
  split; [congruence|]. split; [exact H1|].
  unfold vectorOf. simpl. rewrite H1, H2. apply orb_diag.
Qed.

Section LiveCounters.

Implicit Types (s : Scanner) (e : Event).

Lemma observe_counters s e :
  isScanning s = true ->
  LiveStats.gesturesCount (liveStats (observe s e))
  = LiveStats.gesturesCount (liveStats s) + (if showsHands e then 1 else 0)
  /\ LiveStats.handsDetected (liveStats (observe s e))
     = default (LiveStats.handsDetected (liveStats s)) (handCount e)
  /\ LiveStats.faceDetected (liveStats (observe s e))
     = (LiveStats.faceDetected (liveStats s) || showsNose e)%bool
  /\ LiveStats.poseDetected (liveStats (observe s e))
     = (LiveStats.poseDetected (liveStats s) || showsNose e)%bool.
Proof.
  intros Hs. destruct e as [lms t|lms|event]; simpl observe.
  - unfold hands_onResults, analyzeHandGestures. rewrite Hs.
    destruct lms as [[|h hs]|]; simpl; rewrite ?orb_false_r;
      repeat split; lia.
  - unfold pose_onResults, showsNose, gazeOfFrame. rewrite Hs.
    destruct lms as [landmarks|]; simpl; [|rewrite ?orb_false_r; repeat split; lia].
    destruct (analyzePose_frame landmarks s) as (_ & _ & _ & _ & Hl & _).
    destruct (landmarks !! 0); simpl; rewrite Hl, ?orb_true_r, ?orb_false_r;
      repeat split; lia.
  - unfold recognition_onresult.
    pose proof (onresult_loop
                  (drop (SpeechEvent.resultIndex event) (SpeechEvent.results event))
                  false s) as H.
    destruct (fold_left _ _ _) as [flag s1]. simpl in H.
    destruct H as (_ & _ & _ & _ & _ & _ & _ & _ & Hl & _).
    destruct flag; simpl; rewrite Hl, ?orb_false_r; repeat split; lia.
Qed.

(** The counters of a scan in progress continue from where they stood. *)
Lemma fold_observe_counters events s :
  isScanning s = true ->
  let s' := fold_left observe events s in
  LiveStats.gesturesCount (liveStats s')
  = LiveStats.gesturesCount (liveStats s)
    + length (filter (fun e => showsHands e = true) events)
  /\ LiveStats.handsDetected (liveStats s')
     = default (LiveStats.handsDetected (liveStats s))
               (mostRecent handCount events)
  /\ LiveStats.faceDetected (liveStats s')
     = (LiveStats.faceDetected (liveStats s) || existsb showsNose events)%bool
  /\ LiveStats.poseDetected (liveStats s')
     = (LiveStats.poseDetected (liveStats s) || existsb showsNose events)%bool.
Proof.
  intros Hs. cbv zeta.
  induction events as [|e events (IH1 & IH2 & IH3 & IH4)] using rev_ind.
  - simpl. rewrite !orb_false_r. repeat split. lia.
  - rewrite fold_left_app. cbn [fold_left].
    assert (Hscan : isScanning (fold_left observe events s) = true).
    { clear IH1 IH2 IH3 IH4.
      induction events as [|e' events IH'] using rev_ind; [exact Hs|].
      rewrite fold_left_app. cbn [fold_left]. now rewrite observe_isScanning. }
    destruct (observe_counters (fold_left observe events s) e Hscan)
      as (-> & -> & -> & ->).
    rewrite IH1, IH2, IH3, IH4, filter_app, length_app, mostRecent_snoc,
      existsb_app.
    rewrite filter_cons, filter_nil. cbn [existsb]. rewrite orb_false_r.
    repeat split.
    + destruct (decide (showsHands e = true)) as [->|Hn]; [simpl; lia|].
      destruct (showsHands e); [done | simpl; lia].
    + now destruct (handCount e).
    + now rewrite orb_assoc.
    + now rewrite orb_assoc.
Qed.

(** [faceDetected] and [poseDetected] are only ever set together. *)
Lemma step_face_pose fired s a :
  LiveStats.faceDetected (liveStats s) = LiveStats.poseDetected (liveStats s) ->
  LiveStats.faceDetected (liveStats (step fired s a))
  = LiveStats.poseDetected (liveStats (step fired s a)).
Proof.
  intros H. destruct a as [granted|e| |now]; simpl.
  - now destruct granted.
  - destruct (isScanning s) eqn:Hs.
    + destruct (observe_counters s e Hs) as (_ & _ & -> & ->). now rewrite H.
    + destruct e as [lms t|lms|event]; simpl.
      * unfold hands_onResults. now rewrite Hs.
      * unfold pose_onResults. now rewrite Hs.
      * unfold recognition_onresult.
        pose proof (onresult_loop
                      (drop (SpeechEvent.resultIndex event)
                            (SpeechEvent.results event))
                      false s) as Hloop.
        destruct (fold_left _ _ _) as [flag s1]. simpl in Hloop.
        destruct Hloop as (_ & _ & _ & _ & _ & _ & _ & _ & Hl & _).
        destruct flag; simpl; rewrite Hl; exact H.
  - exact H.
  - now destruct fired.
Qed.

Lemma run_face_pose actions :
  LiveStats.faceDetected (liveStats (run mounted actions))
  = LiveStats.poseDetected (liveStats (run mounted actions)).
Proof.
  induction actions as [|a actions IH] using rev_ind; [reflexivity|].
  rewrite run_snoc. now apply step_face_pose.
Qed.

Lemma run_observe actions events :
  run mounted (actions ++ (Observe <$> events))
  = fold_left observe events (run mounted actions).
Proof. unfold run. now rewrite play_app, act_observe. Qed.

End LiveCounters.

(** X4: while a scan is on, whichever scan of the component it is, the
    live counters continue from where they stood when the events began
    (nothing resets them between scans): [gesturesCount] grows by the
    number of hand frames that showed at least one hand, [handsDetected]
    becomes the number of hands of the most recent hand frame that had
    landmarks (it stays when there is none), and [faceDetected] and
    [poseDetected], always equal, are set as soon as a pose frame supplies
    the nose landmark. *)
Theorem live_counters (actions : list Action) (events : list Event) :
  let l := liveStats (run mounted actions) in
  let l' := liveStats (run mounted (actions ++ (Observe <$> events))) in
  isScanning (run mounted actions) = true ->
  LiveStats.gesturesCount l'
  = LiveStats.gesturesCount l
    + length (filter (fun e => showsHands e = true) events)
  /\ LiveStats.handsDetected l'
     = default (LiveStats.handsDetected l) (mostRecent handCount events)
  /\ LiveStats.faceDetected l' = LiveStats.poseDetected l'
  /\ (LiveStats.poseDetected l' = true
      <-> LiveStats.poseDetected l = true
          \/ exists landmarks nose,
               PoseResults (Some landmarks) ∈ events
               /\ landmarks !! 0 = Some nose).
Proof.
  intros l l' Hs.
  pose proof (run_face_pose (actions ++ (Observe <$> events))) as Hfp.
  fold l' in Hfp. unfold l'. rewrite run_observe.
  unfold l' in Hfp. rewrite run_observe in Hfp.
  destruct (fold_observe_counters events (run mounted actions) Hs)
    as (H1 & H2 & H3 & H4).
  split; [exact H1|]. split; [exact H2|]. split; [exact Hfp|].
  rewrite H4. fold l. rewrite orb_true_iff.
  apply or_iff_compat_l. split.
  - intros (e & He & Hn)%existsb_exists. unfold showsNose in Hn.
    apply bool_decide_eq_true_1 in Hn as [g Hg].
    destruct e as [| [landmarks|] |]; try discriminate.
    simpl in Hg. destruct (landmarks !! 0) as [nose|] eqn:Hnose; [|discriminate].
    exists landmarks, nose. split; [now apply list_elem_of_In | exact Hnose].
  - intros (landmarks & nose & He & Hnose). apply existsb_exists.
    exists (PoseResults (Some landmarks)). split; [now apply list_elem_of_In|].
    unfold showsNose. apply bool_decide_eq_true_2. simpl. rewrite Hnose.
    now eexists.
Qed.

(** In a second scan the gesture counter goes on from the first scan's. *)
Lemma live_counters_witness :
  LiveStats.gesturesCount
    (liveStats
       (run mounted
          ([StartScan true; Observe (HandsResults (Some [Sample.hand_at 0.5 0.5]) 0);
            StopScan; StartScan true]
           ++ (Observe <$> [HandsResults (Some [Sample.hand_at 0.6 0.5]) 40]))))
  = 1 + 1.
Proof.
  exact (proj1 (live_counters
                  [StartScan true;
                   Observe (HandsResults (Some [Sample.hand_at 0.5 0.5]) 0);
                   StopScan; StartScan true]
                  [HandsResults (Some [Sample.hand_at 0.6 0.5]) 40] eq_refl)).
Defined.

Section Idle.

Implicit Types (s : Scanner) (e : Event).

Lemma sameButSpeech_refl s : sameButSpeech s s.
Proof. repeat split. Qed.

Lemma sameButSpeech_trans s1 s2 s3 :
  sameButSpeech s1 s2 -> sameButSpeech s2 s3 -> sameButSpeech s1 s3.
Proof.
  unfold sameButSpeech. intros H1 H2.
  repeat match goal with H : _ /\ _ |- _ => destruct H end.
  repeat split; congruence.
Qed.

Lemma recognition_onresult_sameButSpeech event s :
  sameButSpeech s (recognition_onresult event s).
Proof.
  unfold recognition_onresult.
  pose proof (onresult_loop
                (drop (SpeechEvent.resultIndex event) (SpeechEvent.results event))
                false s) as H.
  destruct (fold_left _ _ _) as [flag s1]. simpl in H.
  destruct H as (_ & _ & H3 & H4 & H5 & _ & H7 & H8 & H9 & H10).
  unfold sameButSpeech, freq in *.
  destruct flag; simpl; rewrite ?H3, ?H4, ?H5, ?H7, ?H8, ?H9, ?H10; repeat split.
Qed.

Lemma observe_idle s e :
  isScanning s = false -> sameButSpeech s (observe s e).
Proof.
  intros Hs. destruct e as [lms t|lms|event]; simpl.
  - unfold hands_onResults. rewrite Hs. apply sameButSpeech_refl.
  - unfold pose_onResults. rewrite Hs. apply sameButSpeech_refl.
  - apply recognition_onresult_sameButSpeech.
Qed.

Lemma fold_observe_speech events s :
  Features.speechDetected (features (fold_left observe events s))
  = (Features.speechDetected (features s) || existsb bringsFinalSpeech events)%bool.
Proof.
  revert s. induction events as [|e events IH]; intros s; simpl.
  - now rewrite orb_false_r.
  - rewrite IH. destruct (observe_speech s e) as [-> _]. now rewrite orb_assoc.
Qed.

End Idle.

(** X5: while the scanner is not scanning, hand and pose frames change
    nothing, but speech results are still recorded: after any events the
    state differs from the one before at most in its speech fields, and
    [speechDetected] is set as soon as one of them brought a finalized
    result. *)
Theorem idle_scanner_still_hears (s : Scanner) (events : list Event) :
  isScanning s = false ->
  let s' := fold_left observe events s in
  sameButSpeech s s'
  /\ Features.speechDetected (features s')
     = (Features.speechDetected (features s)
        || existsb bringsFinalSpeech events)%bool.
Proof.
  intros Hs s'. split; [|apply fold_observe_speech].
  unfold s'. clear s'. revert s Hs.
  induction events as [|e events IH]; intros s Hs; simpl.
  - apply sameButSpeech_refl.
  - pose proof (observe_idle s e Hs) as H1.
    eapply sameButSpeech_trans; [exact H1|].
    apply IH. destruct H1 as [-> _]. exact Hs.
Qed.

Lemma idle_scanner_still_hears_witness :
  Features.speechDetected
    (features
       (fold_left observe
          [HandsResults (Some [Sample.hand_at 0.5 0.5]) 0;
           SpeechResults (SpeechEvent.mk 0 [SpeechResult.mk true "late"%string])]
          (stopScan (scanning []))))
  = true.
Proof.
  exact (proj2 (idle_scanner_still_hears (stopScan (scanning [])) _ eq_refl)).
Defined.

Section TwoHands.

Lemma slice_last_two {A} (n : nat) (l : list A) (a b : A) :
  2 <= n -> JS.slice_last n (l ++ [a; b]) = JS.slice_last (n - 2) l ++ [a; b].
Proof.
  intros Hn. unfold JS.slice_last. rewrite length_app. simpl.
  replace (length l + 2 - n) with (length l - (n - 2)) by lia.
  apply drop_app_le. lia.
Qed.

End TwoHands.

(** X6: when a frame shows two hands or more, the movement test compares
    the wrists of its last two hands with each other, whatever the history
    holds: the accumulator grows by 0.2 (up to the cap of 10) exactly when
    those two wrists are more than 0.01 apart, by the Euclidean distance of
    their x and y. *)
Theorem two_hands_compare_each_other (actions : list Action)
    (hands : list Hand.t) (hand1 hand2 : Hand.t) (currentTime : Z) :
  let s := run mounted actions in
  let s' := hands_onResults (Some (hands ++ [hand1; hand2])) currentTime s in
  let dx := (Landmark.x (Hand.wrist hand2) - Landmark.x (Hand.wrist hand1))%float in
  let dy := (Landmark.y (Hand.wrist hand2) - Landmark.y (Hand.wrist hand1))%float in
  isScanning s = true ->
  freq s' = if (0.01 <? PrimFloat.sqrt (dx * dx + dy * dy))%float
            then (if (freq s + 0.2 <? 10)%float
                  then (freq s + 0.2)%float else 10%float)
            else freq s.
Proof.
  intros s s' dx dy Hs. unfold s', hands_onResults, analyzeHandGestures.
  rewrite Hs.
  destruct (decide _) as [_|Hn]; [|rewrite length_app in Hn; simpl in Hn; lia].
  unfold freq. simpl. unfold handPositions.
  rewrite map_app, app_assoc. simpl map.
  rewrite slice_last_two by lia. rewrite movementFreq_two.
  change (distance _ _) with (PrimFloat.sqrt (dx * dx + dy * dy)).
  pose proof (run_onLadder actions) as Hl. fold s in Hl.
  destruct (_ <? _)%float; [|now apply onLadder_capped].
  now apply onLadder_bump_plain.
Qed.

Lemma two_hands_compare_each_other_witness :
  freq (hands_onResults
          (Some [Sample.hand_at 0.3 0.5; Sample.hand_at 0.7 0.5]) 0
          (run mounted [StartScan true]))
  = 0.2%float.
Proof.
  exact (two_hands_compare_each_other [StartScan true] []
           (Sample.hand_at 0.3 0.5) (Sample.hand_at 0.7 0.5) 0 eq_refl).
Defined.

Section Delivered.

Implicit Types (a : Action).



End Delivered.


Section Restart.

Lemma scanning_onLadder events : onLadder (freq (scanning events)).
Proof.
  pose proof (run_onLadder ([StartScan true] ++ (Observe <$> events))) as H.
  unfold run in H. now rewrite play_scanning in H.
Qed.

Lemma scanning_interactionBehavior events :
  Features.interactionBehavior (features (scanning events)) = None.
Proof.
  destruct (run_quiet ([StartScan true] ++ (Observe <$> events))) as (_ & _ & H).
  unfold run in H. now rewrite play_scanning in H.
Qed.

End Restart.

(** X8: stopping a scan and starting it again leaves the timers of both
    Start clicks armed, and each hands on the vector of the render of its
    own click: the first to fire reports the all-neutral vector of the
    freshly mounted component, the second reports what had been observed
    before the second click; what is observed after the second click is in
    neither. *)
Theorem restart_delivers_click_time_vectors (before between after : list Event)
    (t1 t2 : string) :
  delivered
    (run mounted ([StartScan true] ++ (Observe <$> before)
                  ++ [StopScan; StartScan true] ++ (Observe <$> between)
                  ++ [CompleteScan t1] ++ (Observe <$> after)
                  ++ [CompleteScan t2]))
  = [ScanResults.mk (FeatureVector.mk 0 false normal standing None t1) 20000;
     ScanResults.mk
       (FeatureVector.mk (freq (scanning before))
                         (existsb bringsFinalSpeech before)
                         (default normal (mostRecent gazeOfFrame before))
                         (default standing (mostRecent postureOfFrame before))
                         None t2)
       20000].
Proof.
  unfold run, play. rewrite !fold_left_app, !act_observe.
  cbn [fold_left act step current timers startGuidedSteps head tail app
       completeScan delivered].
  fold (scanning before).
  rewrite observe_delivered_fold. cbn [completeScan delivered].
  rewrite observe_delivered_fold.
  change (delivered (startScan true (stopScan (scanning before))))
    with (delivered (scanning before)).
  change (features (stopScan (scanning before))) with (features (scanning before)).
  change (liveStats (stopScan (scanning before))) with (liveStats (scanning before)).
  rewrite scanning_delivered. unfold scanResults.
  destruct (scanning_speech before) as [-> ->].
  rewrite scanning_gaze, scanning_posture, scanning_interactionBehavior.
  rewrite (orb_diag (existsb bringsFinalSpeech before)).
  fold (freq (scanning before)).
  rewrite (onLadder_capped _ (scanning_onLadder before)).
  destruct (mostRecent gazeOfFrame before), (mostRecent postureOfFrame before);
    reflexivity.
Qed.


(* ================================================================== *)
(** * The consent modal *)

Section Consent.

Import ConsentModal.

Lemma markRead_fold (ids : list string) (m : gmap string bool) (k : string) :
  fold_left (fun m id => markRead id m) ids m !! k
  = if decide (k ∈ ids) then Some true else m !! k.
Proof.
  revert m. induction ids as [|id ids IH]; intros m; cbn [fold_left].
  - rewrite decide_False; [reflexivity | apply not_elem_of_nil].
  - rewrite IH. unfold markRead.
    destruct (decide (k ∈ ids)) as [Hin|Hnin].
    + rewrite decide_True; [reflexivity | now apply list_elem_of_further].
    + destruct (decide (k = id)) as [->|Hne].
      * rewrite lookup_insert_eq. rewrite decide_True; [reflexivity|].
        apply list_elem_of_here.
      * rewrite lookup_insert_ne by congruence.
        rewrite decide_False; [reflexivity|].
        intros [->|H]%elem_of_cons; [congruence | contradiction].
Qed.

Lemma observerCallback_sections entries m :
  readSections (observerCallback entries m)
  = fold_left (fun m id => markRead id m) (omap entrySection entries)
      (readSections m)
  /\ manualCheckbox (observerCallback entries m) = manualCheckbox m.
Proof.
  unfold observerCallback. revert m.
  induction entries as [|entry entries IH]; intros m; [now split|].
  cbn [fold_left omap list_omap]. fold (omap entrySection entries).
  destruct (entrySection entry) as [id|]; cbn [fold_left].
  - destruct (IH (handleSectionRead id m)) as [-> ->]. now split.
  - apply IH.
Qed.

Lemma step_sections m e :
  readSections (step m e)
  = fold_left (fun m id => markRead id m) (marked e) (readSections m).
Proof.
  destruct e as [section|entries|checked]; simpl; [reflexivity| |reflexivity].
  apply observerCallback_sections.
Qed.

Lemma step_checkbox m e :
  manualCheckbox (step m e)
  = match e with CheckboxChange checked => checked | _ => manualCheckbox m end.
Proof.
  destruct e as [section|entries|checked]; simpl; [reflexivity| |reflexivity].
  apply observerCallback_sections.
Qed.

Lemma after_snoc m events e : after m (events ++ [e]) = step (after m events) e.
Proof. unfold after. now rewrite fold_left_app. Qed.

Lemma after_sections m events :
  readSections (after m events)
  = fold_left (fun m id => markRead id m) (events ≫= marked) unread.
Proof.
  induction events as [|e events IH] using rev_ind; [reflexivity|].
  rewrite after_snoc, step_sections, IH, bind_app, fold_left_app.
  simpl. now rewrite app_nil_r.
Qed.

Lemma after_checkbox m events :
  manualCheckbox (after m events) = lastChecked events.
Proof.
  induction events as [|e events IH] using rev_ind; [reflexivity|].
  rewrite after_snoc, step_checkbox. unfold lastChecked.
  rewrite omap_app. simpl.
  destruct e; simpl; rewrite ?app_nil_r, ?last_snoc; try exact IH. reflexivity.
Qed.

Lemma unread_lookup k :
  unread !! k = if decide (k ∈ sections) then Some false else None.
Proof.
  destruct (decide (k ∈ sections)) as [Hin|Hnin].
  - unfold sections in Hin.
    repeat (apply elem_of_cons in Hin as [->|Hin]; [vm_compute; reflexivity|]).
    now apply not_elem_of_nil in Hin.
  - apply not_elem_of_list_to_map_1. now rewrite <- list_fmap_compose, list_fmap_id.
Qed.

(** Every value of [readSections] is true exactly when each of the four
    sections has been marked. *)
Lemma sections_all_read m events :
  map_Forall (fun _ v => v = true) (readSections (after m events))
  <-> forall section, section ∈ sections -> section ∈ events ≫= marked.
Proof.
  rewrite after_sections. split.
  - intros Hall section Hin.
    destruct (decide (section ∈ events ≫= marked)) as [H|H]; [exact H|].
    specialize (Hall section false).
    rewrite markRead_fold, decide_False, unread_lookup, decide_True in Hall by done.
    now specialize (Hall eq_refl).
  - intros Hall k v. rewrite markRead_fold, unread_lookup.
    destruct (decide (k ∈ events ≫= marked)); [congruence|].
    destruct (decide (k ∈ sections)) as [Hin|]; [|discriminate].
    now specialize (Hall k Hin).
Qed.

Lemma allRead_after m events :
  allRead (after m events) = true
  <-> (forall section, section ∈ sections -> section ∈ events ≫= marked)
      \/ lastChecked events = true.
Proof.
  unfold allRead. rewrite orb_true_iff, bool_decide_eq_true.
  now rewrite sections_all_read, after_checkbox.
Qed.

End Consent.

(** X10: in a modal that was opened and then saw [events], "I Understand,
    Proceed" is enabled exactly when each of the four sections was marked
    since the opening (by a click, a focus or by scrolling it into view) or
    the checkbox was last set to checked; the checkbox is shown checked
    exactly when the button is enabled. *)
Theorem consent_accept_gate (m : ConsentModal.t)
    (events : list ConsentModal.Event) :
  exists view,
    ConsentModal.render true (ConsentModal.after m events) = Some view
    /\ (ConsentModal.View.acceptDisabled view = false
        <-> (forall section,
                section ∈ ConsentModal.sections ->
                section ∈ events ≫= ConsentModal.marked)
            \/ ConsentModal.lastChecked events = true)
    /\ ConsentModal.View.checkboxChecked view
       = negb (ConsentModal.View.acceptDisabled view).
Proof.
  eexists. split; [reflexivity|]. simpl. split.
  - rewrite negb_false_iff. apply allRead_after.
  - rewrite negb_involutive. unfold ConsentModal.allRead.
    destruct (bool_decide _), (ConsentModal.manualCheckbox _); reflexivity.
Qed.

(** X11: once the four sections are marked, the button stays enabled
    whatever follows in the open modal, also when the user unchecks the
    checkbox. *)
Theorem consent_sections_stay_read (m : ConsentModal.t)
    (events more : list ConsentModal.Event) :
  (forall section,
      section ∈ ConsentModal.sections ->
      section ∈ events ≫= ConsentModal.marked) ->
  ConsentModal.allRead (ConsentModal.after m (events ++ more)) = true
  /\ ConsentModal.allRead
       (ConsentModal.after m (events ++ more ++ [ConsentModal.CheckboxChange false]))
     = true.
Proof.
  intros Hall. split; apply allRead_after; left; intros section Hin;
    rewrite bind_app; apply elem_of_app; left; now apply Hall.
Qed.

Lemma consent_sections_stay_read_witness :
  ConsentModal.allRead
    (ConsentModal.after ConsentModal.initial
       ([ConsentModal.SectionRead "purpose";
         ConsentModal.Observed
           [ConsentModal.Entry.mk true (Some "data"%string);
            ConsentModal.Entry.mk true (Some "usage"%string)];
         ConsentModal.SectionRead "rights"]
        ++ [ConsentModal.CheckboxChange true]
        ++ [ConsentModal.CheckboxChange false]))
  = true.
Proof.
  refine (proj2 (consent_sections_stay_read ConsentModal.initial _
                   [ConsentModal.CheckboxChange true] _)).
  intros section Hin.
  repeat (apply elem_of_cons in Hin as [->|Hin]; [vm_compute; repeat constructor|]).
  now apply not_elem_of_nil in Hin.
Defined.

(* ================================================================== *)
(** * The onboarding page *)

Section OnboardingFlow.

Import Onboarding.

Implicit Types (p : Page) (h : Handler).

Lemma page_run_snoc handlers h :
  run (handlers ++ [h]) = handle (run handlers) h.
Proof. unfold run. now rewrite fold_left_app. Qed.

(** The calls only grow. *)
Lemma handle_calls p h : exists new, calls (handle p h) = calls p ++ new.
Proof.
  destruct h; simpl;
    unfold clickAccept, handleAcceptRecommendation, handleScanComplete_resume,
      handleManualSelection;
    repeat match goal with
           | |- context [decide ?P] => destruct (decide P)
           | |- context [RecommendationCard ?r] => destruct r; simpl
           | |- context [match ?x with _ => _ end] => destruct x; simpl
           end;
    first [ now eexists | exists []; now rewrite app_nil_r ].
Qed.

Lemma handle_calls_kept p h c : c ∈ calls p -> c ∈ calls (handle p h).
Proof.
  intros Hc. destruct (handle_calls p h) as [new ->].
  apply elem_of_app. now left.
Qed.

Lemma handle_scan p h :
  step (handle p h) = Step.scan ->
  (exists now, h = ConsentAccept now) \/ step p = Step.scan.
Proof.
  destruct h; simpl;
    unfold clickAccept, handleAcceptRecommendation, handleScanComplete_resume,
      handleManualSelection;
    repeat match goal with
           | |- context [decide ?P] => destruct (decide P)
           | |- context [RecommendationCard ?r] => destruct r; simpl
           | |- context [match ?x with _ => _ end] => destruct x; simpl
           end;
    try discriminate; try (now right); try congruence.
  left. now eexists.
Qed.

Lemma handle_sound p h :
  Forall soundCall (calls p) -> Forall soundCall (calls (handle p h)).
Proof.
  intros Hp.
  destruct h as [|now|now| |scanData|result| |now saved| |mode now saved| | |];
    simpl; try exact Hp;
    try solve [apply Forall_app; split; [exact Hp | repeat constructor]].
  - unfold handleScanComplete_resume. now destruct result.
  - unfold clickAccept. destruct (decide _); [|exact Hp].
    destruct (recommendation p) as [r|] eqn:Hr; simpl; [|exact Hp].
    destruct (isHighConfidence (Recommendation.confidence r)) eqn:Hc;
      simpl; [|exact Hp].
    unfold handleAcceptRecommendation. rewrite Hr. simpl.
    apply Forall_app. split; [exact Hp|].
    assert (soundPreferences
              (Preferences.mk (Recommendation.mode r) camera_recommendation
                 (Some (Recommendation.confidence r)) true now)).
    { split; [reflexivity|]. simpl. now eexists. }
    repeat (apply Forall_cons_2; [simpl; first [exact H | exact I]|]).
    apply Forall_nil_2.
  - unfold handleManualSelection.
    assert (soundPreferences (Preferences.mk mode manual_selection None true now))
      by (split; reflexivity).
    destruct saved; simpl;
      (apply Forall_app; split; [exact Hp|];
       repeat (apply Forall_cons_2; [simpl; first [exact H | exact I]|]);
       apply Forall_nil_2).
Qed.

Lemma run_sound handlers : Forall soundCall (calls (run handlers)).
Proof.
  induction handlers as [|h handlers IH] using rev_ind; [constructor|].
  rewrite page_run_snoc. now apply handle_sound.
Qed.

Lemma handle_backed p h : backedLocally (calls p) -> backedLocally (calls (handle p h)).
Proof.
  intros Hp pr Hin.
  assert (Hold : Call.saveUserPreferences pr ∈ calls p ->
                 exists returned,
                   Call.savePreferences pr returned ∈ calls (handle p h)
                   /\ (Preferences.source pr = manual_selection -> returned = true)).
  { intros H. destruct (Hp pr H) as (ret & Hret & Hm).
    exists ret. split; [now apply handle_calls_kept | exact Hm]. }
  destruct h as [|now|now| |scanData|result| |now saved| |mode now saved| | |];
    simpl in *; try (now apply Hold);
    try solve [apply elem_of_app in Hin as [Hin|Hin]; [now apply Hold|];
               repeat (apply elem_of_cons in Hin as [Hin|Hin]; [discriminate|]);
               now apply not_elem_of_nil in Hin].
  - unfold handleScanComplete_resume in *. destruct result; now apply Hold.
  - unfold clickAccept in *. destruct (decide _); [|now apply Hold].
    destruct (recommendation p) as [r|] eqn:Hr; simpl in *; [|now apply Hold].
    destruct (isHighConfidence (Recommendation.confidence r)); simpl in *;
      [|now apply Hold].
    unfold handleAcceptRecommendation in *. rewrite Hr in *. simpl in *.
    apply elem_of_app in Hin as [Hin|Hin]; [now apply Hold|].
    apply elem_of_cons in Hin as [Hin|Hin]; [discriminate|].
    apply elem_of_cons in Hin as [Hin|Hin].
    + injection Hin as ->. exists saved. split; [|discriminate].
      apply elem_of_app. right. apply list_elem_of_here.
    + apply elem_of_cons in Hin as [Hin|Hin]; [discriminate|].
      now apply not_elem_of_nil in Hin.
  - unfold handleManualSelection in *. destruct saved; simpl in *.
    + apply elem_of_app in Hin as [Hin|Hin]; [now apply Hold|].
      apply elem_of_cons in Hin as [Hin|Hin]; [discriminate|].
      apply elem_of_cons in Hin as [Hin|Hin].
      * injection Hin as ->. exists true. split; [|reflexivity].
        apply elem_of_app. right. apply list_elem_of_here.
      * apply elem_of_cons in Hin as [Hin|Hin]; [discriminate|].
        now apply not_elem_of_nil in Hin.
    + apply elem_of_app in Hin as [Hin|Hin]; [now apply Hold|].
      apply elem_of_cons in Hin as [Hin|Hin]; [discriminate|].
      now apply not_elem_of_nil in Hin.
Qed.

Lemma run_backed handlers : backedLocally (calls (run handlers)).
Proof.
  induction handlers as [|h handlers IH] using rev_ind.
  - intros pr Hin. now apply not_elem_of_nil in Hin.
  - rewrite page_run_snoc. now apply handle_backed.
Qed.

Lemma handle_complete p h :
  step (handle p h) = Step.complete ->
  step p = Step.complete
  \/ exists pr returned, Call.savePreferences pr returned ∈ calls (handle p h).
Proof.
  destruct h; simpl;
    unfold clickAccept, handleAcceptRecommendation, handleScanComplete_resume,
      handleManualSelection;
    repeat match goal with
           | |- context [decide ?P] => destruct (decide P)
           | |- context [RecommendationCard ?r] => destruct r; simpl
           | |- context [match ?x with _ => _ end] => destruct x; simpl
           end;
    try discriminate; try (now left); try congruence;
    intros _; right; do 2 eexists; apply elem_of_app; right;
    apply list_elem_of_here.
Qed.

Lemma handle_showManual p h :
  showManual p = true -> showManual (handle p h) = true.
Proof.
  intros Hp. destruct h; simpl; try exact Hp; try reflexivity;
    unfold clickAccept, handleAcceptRecommendation, handleScanComplete_resume,
      handleManualSelection;
    repeat match goal with
           | |- context [decide ?P] => destruct (decide P)
           | |- context [RecommendationCard ?r] => destruct r eqn:?; simpl
           | |- context [match ?x with _ => _ end] => destruct x eqn:?; simpl
           end;
    try exact Hp; reflexivity.
Qed.

Lemma handle_manual p h :
  (step p = Step.manual -> showManual p = true) ->
  step (handle p h) = Step.manual -> showManual (handle p h) = true.
Proof.
  intros Hp. destruct h; simpl; try exact Hp; try reflexivity;
    try discriminate;
    unfold clickAccept, handleAcceptRecommendation, handleScanComplete_resume,
      handleManualSelection;
    repeat match goal with
           | |- context [decide ?P] => destruct (decide P)
           | |- context [RecommendationCard ?r] => destruct r eqn:?; simpl
           | |- context [match ?x with _ => _ end] => destruct x eqn:?; simpl
           end;
    try exact Hp; try reflexivity; try discriminate; try congruence.
Qed.

Lemma handle_recommendation p h :
  recommendation (handle p h)
  = match resolved h with Some data => data | None => recommendation p end.
Proof.
  destruct h as [|now|now| |scanData|result| |now saved| |mode now saved| | |];
    simpl; try reflexivity.
  - now destruct result.
  - unfold clickAccept. destruct (decide _); [|reflexivity].
    destruct (recommendation p) as [r|] eqn:Hr; simpl; [|now rewrite Hr].
    destruct (isHighConfidence _); simpl; [|now rewrite Hr].
    unfold handleAcceptRecommendation. now rewrite Hr.
  - unfold handleManualSelection. now destruct saved.
Qed.

Lemma run_recommendation handlers :
  recommendation (run handlers) = default None (last (omap resolved handlers)).
Proof.
  induction handlers as [|h handlers IH] using rev_ind; [reflexivity|].
  rewrite page_run_snoc, handle_recommendation, omap_app. simpl.
  destruct (resolved h); simpl; [now rewrite last_snoc|].
  now rewrite app_nil_r.
Qed.

End OnboardingFlow.

Section OnboardingTheorems.

Import Onboarding.

Lemma run_manual handlers :
  step (run handlers) = Step.manual -> showManual (run handlers) = true.
Proof.
  induction handlers as [|h handlers IH] using rev_ind; [discriminate|].
  rewrite page_run_snoc. now apply handle_manual.
Qed.

(** X12: the scan section, and with it the camera scanner, is only ever
    rendered after [saveConsent] was called with [cameraUsage: true]. *)
Theorem scan_section_needs_consent (handlers : list Handler) :
  ScanSection ∈ rendered (run handlers) ->
  exists now, Call.saveConsent true now "1.0" ∈ calls (run handlers).
Proof.
  intros Hin.
  assert (Hstep : step (run handlers) = Step.scan).
  { unfold rendered in Hin.
    destruct (decide (step (run handlers) = Step.scan)) as [H|H]; [exact H|].
    exfalso. revert Hin. generalize (run handlers). intros p.
    repeat rewrite elem_of_app.
    destruct (step p), (showConsent p), (recommendation p), (showManual p),
      (error p); simpl;
      rewrite ?elem_of_cons, ?elem_of_nil; intros Hin; intuition congruence. }
  clear Hin. induction handlers as [|h handlers IH] using rev_ind; [discriminate|].
  rewrite page_run_snoc in *.
  destruct (handle_scan _ _ Hstep) as [[now ->]|Hprev].
  - exists now. simpl. apply elem_of_app. right. apply list_elem_of_here.
  - destruct (IH Hprev) as [now Hnow]. exists now. now apply handle_calls_kept.
Qed.

Lemma scan_section_needs_consent_witness :
  exists now,
    Call.saveConsent true now "1.0"
    ∈ calls (run [StartOnboarding; ConsentAccept "t0"]).
Proof.
  apply scan_section_needs_consent. vm_compute. repeat constructor.
Defined.

(** X13: every preferences object handed to [savePreferences] or sent to
    the backend has [completedOnboarding] set; when its source is the
    camera recommendation it carries a confidence above 0.7 (the accept
    button is disabled otherwise), and when its source is the manual form
    it carries none. *)
Theorem saved_preferences_sound (handlers : list Handler)
    (pr : Preferences.t) (returned : bool) :
  Call.savePreferences pr returned ∈ calls (run handlers)
  \/ Call.saveUserPreferences pr ∈ calls (run handlers) ->
  Preferences.completedOnboarding pr = true
  /\ (Preferences.source pr = camera_recommendation ->
      exists c, Preferences.confidence pr = Some c /\ (0.7 <? c)%float = true)
  /\ (Preferences.source pr = manual_selection -> Preferences.confidence pr = None).
Proof.
  intros Hin.
  assert (Hs : soundPreferences pr).
  { pose proof (run_sound handlers) as Hall. rewrite Forall_forall in Hall.
    destruct Hin as [Hin|Hin]; apply Hall in Hin; exact Hin. }
  destruct Hs as [Hc Hs]. split; [exact Hc|].
  destruct (Preferences.source pr); split; intros; try discriminate; assumption.
Qed.

Lemma saved_preferences_sound_witness :
  exists c,
    Some (Recommendation.confidence OnboardingSample.confident) = Some c
    /\ (0.7 <? c)%float = true.
Proof.
  refine (proj1 (proj2 (saved_preferences_sound OnboardingSample.acceptedFlow
            (Preferences.mk sign camera_recommendation
               (Some (Recommendation.confidence OnboardingSample.confident))
               true "t2") false _)) eq_refl).
  left. vm_compute. repeat constructor.
Defined.

(** X14: the page reaches its complete step only after a call of
    [savePreferences], and whatever is sent to the backend was handed to
    [savePreferences] first; for a manual selection that call had returned
    true (an accepted recommendation is sent on whatever it returned). *)
Theorem completion_needs_local_save (handlers : list Handler) :
  (step (run handlers) = Step.complete ->
   exists pr returned, Call.savePreferences pr returned ∈ calls (run handlers))
  /\ (forall pr,
         Call.saveUserPreferences pr ∈ calls (run handlers) ->
         exists returned,
           Call.savePreferences pr returned ∈ calls (run handlers)
           /\ (Preferences.source pr = manual_selection -> returned = true)).
Proof.
  split; [|apply run_backed].
  induction handlers as [|h handlers IH] using rev_ind; [discriminate|].
  rewrite page_run_snoc. intros Hc.
  destruct (handle_complete _ _ Hc) as [Hprev|Hnew]; [|exact Hnew].
  destruct (IH Hprev) as (pr & ret & Hin).
  exists pr, ret. now apply handle_calls_kept.
Qed.

(** X15: at the manual step the manual form is rendered, and once it is
    rendered it stays rendered whatever follows, also next to the
    completion message. *)
Theorem manual_section_stays (handlers more : list Handler) :
  (step (run handlers) = Step.manual -> ManualSection ∈ rendered (run handlers))
  /\ (ManualSection ∈ rendered (run handlers) ->
      ManualSection ∈ rendered (run (handlers ++ more))).
Proof.
  assert (Hshown : forall p, ManualSection ∈ rendered p <-> showManual p = true).
  { intros p. unfold rendered. repeat rewrite elem_of_app.
    destruct (step p), (showConsent p), (recommendation p), (showManual p),
      (error p); simpl; rewrite ?elem_of_cons, ?elem_of_nil;
      intuition congruence. }
  split.
  - intros Hm. apply Hshown. now apply run_manual.
  - rewrite !Hshown. intros Hm.
    induction more as [|h more IH] using rev_ind; [now rewrite app_nil_r|].
    rewrite app_assoc, page_run_snoc. now apply handle_showManual.
Qed.

(** X16: the recommendation the page holds is the response data of the
    last scan request that resolved, stored as it came (nothing checks or
    clears it); the card is rendered exactly at the recommendation step
    with a recommendation that is not empty; and the page renders nothing
    at all exactly when it has no manual form and no error and either the
    consent step is left with a closed modal or the recommendation step
    holds an empty response, as after a scan request that resolved with
    one. *)
Theorem recommendation_kept_and_blank_page (handlers : list Handler) :
  let p := run handlers in
  recommendation p = default None (last (omap resolved handlers))
  /\ (RecommendationSection ∈ rendered p
      <-> step p = Step.recommendation /\ is_Some (recommendation p))
  /\ (rendered p = []
      <-> (step p = Step.consent /\ showConsent p = false
           \/ step p = Step.recommendation /\ recommendation p = None)
          /\ showManual p = false /\ error p = None)
  /\ rendered (run OnboardingSample.emptyResponseFlow) = [].
Proof.
  intros p. split; [apply run_recommendation|].
  pose proof (run_manual handlers) as H3. fold p in H3.
  split; [|split; [|reflexivity]].
  - unfold rendered, is_Some. repeat rewrite elem_of_app.
    destruct (step p), (showConsent p), (recommendation p), (showManual p),
      (error p); simpl; rewrite ?elem_of_cons, ?elem_of_nil;
      (split;
       [intuition (try discriminate; eauto)
       | intros [Hs [x Hx]];
         first [discriminate Hx | discriminate Hs | intuition]]).
  - unfold rendered. split.
    + intros Hnil.
      destruct (step p) eqn:Hs, (showConsent p) eqn:Hsc,
        (recommendation p) eqn:Hr, (showManual p) eqn:Hsm, (error p) eqn:He;
        simpl in Hnil; try discriminate Hnil;
        try discriminate (H3 eq_refl);
        (split; [first [left; now split | right; now split] | now split]).
    + intros ([[-> ->]|[-> ->]] & -> & ->); reflexivity.
Qed.

End OnboardingTheorems.

(* ================================================================== *)
(** * Local storage *)

Section StorageTheorems.

Import Storage.

Context {J : Type}.
Variable null : J.
Variable jstring : string -> J.
Variable parse : string -> option J.
Variable stringify : gmap string J -> string.

(** X17: after [deleteAllUserData] the preferences and the consent status
    read as null and the camera data is gone, while every other key of the
    storage is left as it was. *)
Theorem deleteAllUserData_scope (localStorage : gmap string string) :
  let after := (deleteAllUserData localStorage).1 in
  getStoredPreferences null parse after = null
  /\ getConsentStatus null parse after = null
  /\ after !! CAMERA_KEY = None
  /\ forall key,
      key <> STORAGE_KEY -> key <> CONSENT_KEY -> key <> CAMERA_KEY ->
      after !! key = localStorage !! key.
Proof.
  unfold deleteAllUserData, getStoredPreferences, getConsentStatus, readJSON.
  simpl. split; [|split; [|split]].
  - rewrite lookup_delete_ne, lookup_delete_ne, lookup_delete_eq by done.
    reflexivity.
  - rewrite lookup_delete_ne, lookup_delete_eq by done. reflexivity.
  - apply lookup_delete_eq.
  - intros key H1 H2 H3. now rewrite !lookup_delete_ne by congruence.
Qed.

(** X18: saving preferences never changes the consent status, saving the
    consent never changes the preferences, [clearCameraData] changes
    neither, and a save that does not fit leaves the storage as it was and
    returns false. *)
Theorem preferences_and_consent_independent (data : gmap string J)
    (now : string) (fits : bool) (localStorage : gmap string string) :
  getConsentStatus null parse
    (savePreferences jstring stringify data now fits localStorage).1
  = getConsentStatus null parse localStorage
  /\ getStoredPreferences null parse
       (saveConsent jstring stringify data now fits localStorage).1
     = getStoredPreferences null parse localStorage
  /\ getStoredPreferences null parse (clearCameraData localStorage).1
     = getStoredPreferences null parse localStorage
  /\ getConsentStatus null parse (clearCameraData localStorage).1
     = getConsentStatus null parse localStorage
  /\ savePreferences jstring stringify data now false localStorage
     = (localStorage, false).
Proof.
  unfold getConsentStatus, getStoredPreferences, readJSON, savePreferences,
    saveConsent, clearCameraData, writeJSON.
  destruct fits; simpl; repeat split;
    rewrite ?lookup_insert_ne, ?lookup_delete_ne by done; reflexivity.
Qed.

(** X19: after two saves of preferences, the first going through, the
    stored text is that of the second object when its save went through
    and of the first otherwise, each with [updatedAt] set by the save
    whatever the caller had put there; reading gives back the parse of that
    text. *)
Theorem savePreferences_read_back (first second : gmap string J)
    (t1 t2 : string) (fits : bool) (localStorage : gmap string string) :
  let saved1 := (savePreferences jstring stringify first t1 true localStorage).1 in
  let saved2 := (savePreferences jstring stringify second t2 fits saved1).1 in
  let written :=
    if fits then <["updatedAt"%string := jstring t2]> (delete "updatedAt"%string second)
    else <["updatedAt"%string := jstring t1]> (delete "updatedAt"%string first) in
  saved2 !! STORAGE_KEY = Some (stringify written)
  /\ (stringify written <> EmptyString ->
      getStoredPreferences null parse saved2
      = default null (parse (stringify written))).
Proof.
  intros saved1 saved2 written.
  assert (Hw : saved2 !! STORAGE_KEY = Some (stringify written)).
  { unfold saved2, saved1, written, savePreferences, writeJSON.
    destruct fits; simpl; rewrite lookup_insert_eq, insert_delete_eq; reflexivity. }
  split; [exact Hw|].
  intros Hne. unfold getStoredPreferences, readJSON. rewrite Hw.
  destruct (stringify written); [congruence | reflexivity].
Qed.

End StorageTheorems.
